(** * Session state machine of the Gree HVAC bridge ([app/deviceFactory.js])

    A shallow embedding of class [Device]: the handshake
    (scan / dev / bind / bindok), the dispatch of inbound payloads and the
    envelopes built for outbound requests.

    What lives outside the file under study is taken as it is used there:
    - [encryptionService] ([encrypt], [encrypt_v2], [decrypt], [decrypt_v2])
      and the command catalog [cmd] are variables of the development;
    - [JSON.parse], [socket.send], [setInterval], [console.log] and the three
      callbacks of [options] are runtime effects: a parse is part of the
      datagram, the others are recorded as events in the order the code
      performs them. *)

From Stdlib Require Import ZArith String List.
From stdpp Require Import base option list strings gmap.
Import ListNotations.
Local Open Scope string_scope.
Local Open Scope list_scope.
Local Open Scope Z_scope.

(** ** Data *)

(** The JavaScript values the protocol carries in value lists. [JUndefined]
    is what indexing past the end of an array gives. *)
Inductive JsVal : Type :=
  | JUndefined
  | JNull
  | JBool (b : bool)
  | JNum (n : Z)
  | JStr (s : string).

#[global] Instance JsVal_eq_dec : EqDecision JsVal.
Proof. solve_decision. Defined.

(** The outer object of an inbound datagram, after [JSON.parse]. A field that
    the object lacks reads as [undefined], here [None]. *)
Record Message : Type := {
  msg_cid : option string;
  msg_i : option Z;
  msg_tag : option string;
  msg_pack : option string
}.

(** The decrypted payload ([pack] in [_handleResponse]); fields per kind:
    [dev] has [ver], [cid], [name]; [bindok] has [key]; [dat] has [cols],
    [dat]; [res] has [opt] and [p] or [val]. *)
Record Pack : Type := {
  pack_t : option string;
  pack_ver : option string;
  pack_cid : option string;
  pack_name : option string;
  pack_key : option string;
  pack_cols : option (list string);
  pack_dat : option (list JsVal);
  pack_opt : option (list string);
  pack_p : option (list JsVal);
  pack_val : option (list JsVal)
}.

(** [rinfo] of the [message] event: the address and the port the datagram
    came from. *)
Record RInfo : Type := {
  rinfo_address : string;
  rinfo_port : Z
}.

(** [this.device]. It starts as the empty object, so every field can be
    [undefined]; [props] is a JavaScript object used as a map from code to
    value (the codes of the protocol are ordinary keys: none is
    [__proto__]). *)
Record Device : Type := {
  dev_id : option string;
  dev_name : option string;
  dev_address : option string;
  dev_port : option Z;
  dev_bound : option bool;
  dev_props : option (gmap string JsVal);
  dev_key : option string
}.

(** The mutable fields of a [Device] instance. [props_inherits] is the one
    thing of the object [this.device.props] that its own keys do not show:
    whether it still has [Object.prototype] as its prototype, and with it
    the [__proto__] setter. *)
Record Session : Type := {
  device : Device;
  encryptionVersion : Z;
  tag : string;
  packetSentNo : Z;
  packetReceivedNo : Z;
  props_inherits : bool
}.

(** The payloads the client encrypts. *)
Inductive Request : Type :=
  | BindMsg (mac : option string)
  | StatusMsg (cols : list string) (mac : option string)
  | CmdMsg (opt : list string) (p : list JsVal).

(** The object literal [request] of [_sendBindRequest] and [_sendRequest].
    [env_tag = None] is the literal without a [tag] key. [env_pack] is
    [None] when [encryptedBoundMessage] was never assigned. *)
Record Envelope : Type := {
  env_tcid : option string;
  env_cid : string;
  env_i : Z;
  env_t : string;
  env_uid : Z;
  env_tag : option string;
  env_pack : option string
}.

(** Result of [encrypt_v2]. *)
Record Encrypted : Type := {
  enc_pack : string;
  enc_tag : string
}.

(** [require('./encryptionService')()]. A [decrypt] that gives [None] is one
    that throws, or that yields a value on which reading [.t] throws. The
    two encrypt operations are taken to return. *)
Record EncryptionService : Type := {
  encrypt : Request -> option string -> string;
  encrypt_v2 : Request -> option string -> Encrypted;
  decrypt : Message -> option string -> option Pack;
  decrypt_v2 : Message -> option string -> option Pack
}.

(** What the socket delivers, seen through [JSON.parse (msg + '')]: text
    that is not JSON, or the parsed outer object. *)
Inductive Buffer : Type :=
  | NotJson
  | JsonText (message : Message).

Definition JSON_parse (msg : Buffer) : option Message :=
  match msg with
  | NotJson => None
  | JsonText message => Some message
  end.

(** ** Effects *)

Inductive LogLine : Type :=
  | LogConnected
  | LogNewDevice (id : option string) (address : option string)
  | LogBound (id : option string)
  | LogUnknown (t : option string).

Inductive TimerTask : Type :=
  | RequestDeviceStatus.

Inductive Event : Type :=
  | Broadcast (port : Z)
  | Send (request : Envelope) (port : option Z) (address : option string)
  | SetInterval (task : TimerTask) (ms : Z)
  | OnConnected (d : Device)
  | OnStatus (d : Device)
  | OnUpdate (d : Device)
  | ConsoleLog (line : LogLine).

(** What the methods throw: [JSON.parse] on text that is not JSON, the
    cipher on a pack it does not open, a read or write through [undefined],
    and [socket.send] on a port it refuses. *)
Inductive Exn : Type :=
  | SyntaxError
  | DecryptError
  | TypeError
  | RangeError.

(** A method body: it reads and writes the session, performs events, and
    either returns or throws. A throw keeps the writes and events made so
    far, as in JavaScript. *)
Definition M (A : Type) : Type := Session -> Session * list Event * (Exn + A).

Definition ret {A} (a : A) : M A := fun s => (s, [], inr a).

Definition bind {A B} (m : M A) (f : A -> M B) : M B :=
  fun s =>
    match m s with
    | (s1, ev1, inl e) => (s1, ev1, inl e)
    | (s1, ev1, inr a) =>
        match f a s1 with
        | (s2, ev2, r) => (s2, ev1 ++ ev2, r)
        end
    end.

Definition throw {A} (e : Exn) : M A := fun s => (s, [], inl e).
Definition gets {A} (f : Session -> A) : M A := fun s => (s, [], inr (f s)).
Definition modify (f : Session -> Session) : M unit := fun s => (f s, [], inr tt).
Definition emit (e : Event) : M unit := fun s => (s, [e], inr tt).

Declare Scope js_scope.
Delimit Scope js_scope with js.
Notation "x <- m ;; k" := (bind m (fun x => k))
  (at level 100, m at next level, right associativity) : js_scope.
Notation "m ;; k" := (bind m (fun _ => k))
  (at level 100, right associativity) : js_scope.
Local Open Scope js_scope.

(** [o] when it is defined, else a [TypeError] (reading through
    [undefined]). *)
Definition defined {A} (o : option A) : M A :=
  match o with
  | Some a => ret a
  | None => throw TypeError
  end.

(** [Array.prototype.forEach] with the index passed to the callback. *)
Fixpoint forEach_from {A} (i : nat) (l : list A) (f : A -> nat -> M unit) : M unit :=
  match l with
  | [] => ret tt
  | x :: rest => f x i ;; forEach_from (S i) rest f
  end.

Definition forEach {A} (l : list A) (f : A -> nat -> M unit) : M unit :=
  forEach_from 0%nat l f.

(** [a[i]] on an array: [undefined] out of range. *)
Definition index (a : list JsVal) (i : nat) : JsVal :=
  match a !! i with
  | Some v => v
  | None => JUndefined
  end.

(** Truthiness of a string-or-undefined. *)
Definition truthy (o : option string) : bool :=
  match o with
  | Some s => negb (String.eqb s "")
  | None => false
  end.

(** [pack.ver && pack.ver.toString().startsWith('V2.')]. *)
Definition ver_is_V2 (ver : option string) : bool :=
  truthy ver &&
  match ver with
  | Some v => String.prefix "V2." v
  | None => false
  end.

(** ** Field updates *)

Definition set_device (d : Device) (s : Session) : Session :=
  {| device := d;
     encryptionVersion := encryptionVersion s;
     tag := tag s;
     packetSentNo := packetSentNo s;
     packetReceivedNo := packetReceivedNo s;
     props_inherits := props_inherits s |}.

Definition set_encryptionVersion (v : Z) (s : Session) : Session :=
  {| device := device s;
     encryptionVersion := v;
     tag := tag s;
     packetSentNo := packetSentNo s;
     packetReceivedNo := packetReceivedNo s;
     props_inherits := props_inherits s |}.

Definition set_tag (x : string) (s : Session) : Session :=
  {| device := device s;
     encryptionVersion := encryptionVersion s;
     tag := x;
     packetSentNo := packetSentNo s;
     packetReceivedNo := packetReceivedNo s;
     props_inherits := props_inherits s |}.

Definition incr_packetSentNo (s : Session) : Session :=
  {| device := device s;
     encryptionVersion := encryptionVersion s;
     tag := tag s;
     packetSentNo := packetSentNo s + 1;
     packetReceivedNo := packetReceivedNo s;
     props_inherits := props_inherits s |}.

Definition incr_packetReceivedNo (s : Session) : Session :=
  {| device := device s;
     encryptionVersion := encryptionVersion s;
     tag := tag s;
     packetSentNo := packetSentNo s;
     packetReceivedNo := packetReceivedNo s + 1;
     props_inherits := props_inherits s |}.

Definition set_props_inherits (b : bool) (s : Session) : Session :=
  {| device := device s;
     encryptionVersion := encryptionVersion s;
     tag := tag s;
     packetSentNo := packetSentNo s;
     packetReceivedNo := packetReceivedNo s;
     props_inherits := b |}.

(** [this.device.props[code] = value]; a [TypeError] when [props] is
    [undefined]. On an object that inherits from [Object.prototype] the key
    [__proto__] is the inherited setter, not a key of the object: the
    assignment of [null] takes the prototype away, the assignment of any
    other value of [JsVal] does nothing. Once the prototype is gone
    [__proto__] is a key like any other. *)
Definition write_prop (code : string) (value : JsVal) : M unit :=
  d <- gets device ;;
  ps <- defined (dev_props d) ;;
  inherits <- gets props_inherits ;;
  if String.eqb code "__proto__" && inherits then
    match value with
    | JNull => modify (set_props_inherits false)
    | _ => ret tt
    end
  else
    modify (set_device
      {| dev_id := dev_id d; dev_name := dev_name d;
         dev_address := dev_address d; dev_port := dev_port d;
         dev_bound := dev_bound d;
         dev_props := Some (<[code := value]> ps);
         dev_key := dev_key d |}).

(** [socket.send(buffer, 0, length, port, address)]. With [port]
    [undefined] the call throws [ERR_SOCKET_BAD_PORT], a [RangeError],
    before anything is sent; a port that was read from an [rinfo] is a
    valid port. *)
Definition socket_send (request : Envelope) (port : option Z)
    (address : option string) : M unit :=
  match port with
  | Some _ => emit (Send request port address)
  | None => throw RangeError
  end.

(** ** The methods of [Device] *)

Section Device.

Variable encryptionService : EncryptionService.

(** [Object.keys(cmd).map(key => cmd[key].code)]: the codes of the command
    catalog, in its order. *)
Variable cmd_codes : list string.

(** [this.device = {}] and the counters of the constructor. *)
Definition new_Device : Session :=
  {| device :=
       {| dev_id := None; dev_name := None; dev_address := None;
          dev_port := None; dev_bound := None; dev_props := None;
          dev_key := None |};
     encryptionVersion := 1;
     tag := "";
     packetSentNo := 0;
     packetReceivedNo := 0;
     props_inherits := true |}.

(** The callback [_connectToDevice] hands to [socket.bind]: the plain
    [{t: 'scan'}] broadcast to port 7000. The retry after 60 s when
    [socket.bind] itself throws happens before any of this and writes
    nothing. *)
Definition _connectToDevice : M unit :=
  modify incr_packetSentNo ;;
  emit (Broadcast 7000) ;;
  emit (ConsoleLog LogConnected).

(** [_setDevice] assigns six fields of the existing object; [key] is not
    among them and keeps its value. [props] is a fresh [{}]. *)
Definition _setDevice (id name : option string) (address : string) (port : Z) : M unit :=
  d <- gets device ;;
  modify (set_device
    {| dev_id := id; dev_name := name;
       dev_address := Some address; dev_port := Some port;
       dev_bound := Some false; dev_props := Some ∅;
       dev_key := dev_key d |}) ;;
  modify (set_props_inherits true) ;;
  emit (ConsoleLog (LogNewDevice id (Some address))).

(** [x === 'lit'] on a string-or-undefined. *)
Definition eq_lit (x : option string) (lit : string) : bool :=
  match x with
  | Some v => String.eqb v lit
  | None => false
  end.

(** The two object literals of [request]: without and with the [tag] key. *)
Definition request_literal (tg : string) (tcid : option string) (i : Z)
    (encryptedBoundMessage : option string) : Envelope :=
  if String.eqb tg "" then
    {| env_tcid := tcid; env_cid := "app"; env_i := i; env_t := "pack";
       env_uid := 0; env_tag := None; env_pack := encryptedBoundMessage |}
  else
    {| env_tcid := tcid; env_cid := "app"; env_i := i; env_t := "pack";
       env_uid := 0; env_tag := Some tg; env_pack := encryptedBoundMessage |}.

(** [device] is the argument of the call, [this.device] is read from the
    session; the only caller passes [this.device]. *)
Definition _sendBindRequest (device_arg : Device) : M unit :=
  d <- gets device ;;
  let message := BindMsg (dev_id d) in
  v <- gets encryptionVersion ;;
  encryptedBoundMessage <-
    (if v =? 1 then
       modify (set_tag "") ;;
       ret (Some (encrypt encryptionService message None))
     else if v =? 2 then
       let encrypted := encrypt_v2 encryptionService message None in
       modify (set_tag (enc_tag encrypted)) ;;
       ret (Some (enc_pack encrypted))
     else ret None) ;;
  tg <- gets tag ;;
  let request := request_literal tg (dev_id d) 1 encryptedBoundMessage in
  socket_send request (dev_port device_arg) (dev_address device_arg) ;;
  modify incr_packetSentNo.

(** The parameter [id] is not used by the body. *)
Definition _confirmBinding (id key : option string) : M unit :=
  d <- gets device ;;
  modify (set_device
    {| dev_id := dev_id d; dev_name := dev_name d;
       dev_address := dev_address d; dev_port := dev_port d;
       dev_bound := Some true; dev_props := dev_props d;
       dev_key := key |}) ;;
  emit (ConsoleLog (LogBound (dev_id d))).

(** [address] and [port] default to those of [this.device] when the
    argument is [undefined]. *)
Definition _sendRequest (message : Request) (address : option string)
    (port : option Z) : M unit :=
  d <- gets device ;;
  let address := match address with Some a => Some a | None => dev_address d end in
  let port := match port with Some p => Some p | None => dev_port d end in
  v <- gets encryptionVersion ;;
  encryptedBoundMessage <-
    (if v =? 1 then
       modify (set_tag "") ;;
       ret (Some (encrypt encryptionService message (dev_key d)))
     else if v =? 2 then
       let encrypted := encrypt_v2 encryptionService message (dev_key d) in
       modify (set_tag (enc_tag encrypted)) ;;
       ret (Some (enc_pack encrypted))
     else ret None) ;;
  tg <- gets tag ;;
  let request := request_literal tg (dev_id d) 0 encryptedBoundMessage in
  socket_send request port address ;;
  modify incr_packetSentNo.

Definition _requestDeviceStatus (device_arg : Device) : M unit :=
  let message := StatusMsg cmd_codes (dev_id device_arg) in
  _sendRequest message (dev_address device_arg) (dev_port device_arg).

Definition _sendCommand (commands : list string) (values : list JsVal) : M unit :=
  _sendRequest (CmdMsg commands values) None None.

(** The key handed to [decrypt]: [message.i === 1 ? undefined : this.device.key]. *)
Definition decrypt_key (message : Message) (d : Device) : option string :=
  match msg_i message with
  | Some 1 => None
  | _ => dev_key d
  end.

(** The arrow function given to [pack.cols.forEach]:
    [this.device.props[col] = pack.dat[i]]. *)
Definition store_dat (pack : Pack) (col : string) (i : nat) : M unit :=
  dat <- defined (pack_dat pack) ;;
  write_prop col (index dat i).

(** The arrow function given to [pack.opt.forEach]:
    [value = pack.p !== undefined ? pack.p[i] : pack.val[i]], then
    [this.device.props[opt] = value]. *)
Definition store_res (pack : Pack) (opt : string) (i : nat) : M unit :=
  value <- match pack_p pack with
           | Some p => ret (index p i)
           | None => val <- defined (pack_val pack) ;; ret (index val i)
           end ;;
  write_prop opt value.

(** The second half of [_handleResponse], from [if (pack.t === 'dev')] on:
    the dispatch on the kind of the payload. *)
Definition dispatch (message : Message) (pack : Pack) (rinfo : RInfo) : M unit :=
  v <- gets encryptionVersion ;;
  d <- gets device ;;
  if eq_lit (pack_t pack) "dev" then
    (if (v =? 1) && ver_is_V2 (pack_ver pack) then
       modify (set_encryptionVersion 2) ;;
       _setDevice (pack_cid pack) (pack_name pack)
         (rinfo_address rinfo) (rinfo_port rinfo)
     else
       _setDevice (msg_cid message) (pack_name pack)
         (rinfo_address rinfo) (rinfo_port rinfo)) ;;
    d <- gets device ;;
    _sendBindRequest d
  else if eq_lit (pack_t pack) "bindok" && truthy (dev_id d) then
    _confirmBinding (msg_cid message) (pack_key pack) ;;
    emit (SetInterval RequestDeviceStatus 3000) ;;
    d <- gets device ;;
    emit (OnConnected d)
  else if eq_lit (pack_t pack) "dat" && bool_decide (dev_bound d = Some true) then
    cols <- defined (pack_cols pack) ;;
    forEach cols (store_dat pack) ;;
    d <- gets device ;;
    emit (OnStatus d)
  else if eq_lit (pack_t pack) "res" && bool_decide (dev_bound d = Some true) then
    opt <- defined (pack_opt pack) ;;
    forEach opt (store_res pack) ;;
    d <- gets device ;;
    emit (OnUpdate d)
  else
    emit (ConsoleLog (LogUnknown (pack_t pack))).

(** The first half: count, parse, decrypt with the operation of the
    session's version. With a version that is neither 1 nor 2 [pack] stays
    [undefined] and reading [pack.t] throws. *)
Definition _handleResponse (msg : Buffer) (rinfo : RInfo) : M unit :=
  modify incr_packetReceivedNo ;;
  message <- match JSON_parse msg with
             | Some message => ret message
             | None => throw SyntaxError
             end ;;
  v <- gets encryptionVersion ;;
  d <- gets device ;;
  pack <-
    (if v =? 1 then
       match decrypt encryptionService message (decrypt_key message d) with
       | Some pack => ret pack
       | None => throw DecryptError
       end
     else if v =? 2 then
       match decrypt_v2 encryptionService message (decrypt_key message d) with
       | Some pack => ret pack
       | None => throw DecryptError
       end
     else throw TypeError) ;;
  dispatch message pack rinfo.

(** ** Reactions

    Everything the instance does after construction is a reaction to one of
    four things: the socket is listening, a datagram arrives, the polling
    timer fires, or the application sends a command. The timer was given
    [this.device] itself, so a tick reads the device as it is then. *)
Inductive Stimulus : Type :=
  | Listening
  | Inbound (msg : Buffer) (rinfo : RInfo)
  | Tick
  | Command (commands : list string) (values : list JsVal).

Definition react (x : Stimulus) : M unit :=
  match x with
  | Listening => _connectToDevice
  | Inbound msg rinfo => _handleResponse msg rinfo
  | Tick => d <- gets device ;; _requestDeviceStatus d
  | Command commands values => _sendCommand commands values
  end.

Definition state_of {A} (r : Session * list Event * (Exn + A)) : Session := r.1.1.
Definition events_of {A} (r : Session * list Event * (Exn + A)) : list Event := r.1.2.
Definition outcome_of {A} (r : Session * list Event * (Exn + A)) : Exn + A := r.2.

(** A run of reactions. An exception that escapes one reaction ends that
    reaction only; what it already wrote stays. Whether the process goes on
    after it is up to the application: the states of a process that stops
    are a prefix of the states listed here. *)
Fixpoint run (s : Session) (xs : list Stimulus) : Session * list Event :=
  match xs with
  | [] => (s, [])
  | x :: rest =>
      let r := react x s in
      let r' := run (state_of r) rest in
      (r'.1, events_of r ++ r'.2)
  end.

End Device.

(** ** The setters

    The public methods below [_sendRequest]. Each turns its argument into
    one or two (code, value) pairs and hands them to [_sendCommand]. *)

(** Truthiness of a value, as [value ? 1 : 0] tests it. *)
Definition js_truthy (v : JsVal) : bool :=
  match v with
  | JUndefined | JNull => false
  | JBool b => b
  | JNum n => negb (n =? 0)
  | JStr s => negb (String.eqb s "")
  end.

(** [value ? 1 : 0]. *)
Definition one_or_zero (value : JsVal) : JsVal :=
  if js_truthy value then JNum 1 else JNum 0.

(** [require('./commandEnums')], as far as the setters read it: the [code]
    of fourteen entries and [temperatureUnit.value.celsius]. *)
Record CommandEnums : Type := {
  power_code : string;
  temperatureUnit_code : string;
  temperatureUnit_celsius : JsVal;
  temperature_code : string;
  mode_code : string;
  fanSpeed_code : string;
  swingHor_code : string;
  swingVert_code : string;
  powerSave_code : string;
  lights_code : string;
  health_code : string;
  quiet_code : string;
  blow_code : string;
  air_code : string;
  sleep_code : string;
  turbo_code : string
}.

Section Setters.

Variable encryptionService : EncryptionService.
Variable cmd : CommandEnums.

Definition setPower (value : JsVal) : M unit :=
  _sendCommand encryptionService [power_code cmd] [one_or_zero value].

(** [unit = cmd.temperatureUnit.value.celsius]: the default stands in when
    the argument is [undefined]. *)
Definition setTemp (value unit_ : JsVal) : M unit :=
  let unit_ := match unit_ with
               | JUndefined => temperatureUnit_celsius cmd
               | _ => unit_
               end in
  _sendCommand encryptionService
    [temperatureUnit_code cmd; temperature_code cmd] [unit_; value].

Definition setMode (value : JsVal) : M unit :=
  _sendCommand encryptionService [mode_code cmd] [value].

Definition setFanSpeed (value : JsVal) : M unit :=
  _sendCommand encryptionService [fanSpeed_code cmd] [value].

Definition setSwingHor (value : JsVal) : M unit :=
  _sendCommand encryptionService [swingHor_code cmd] [value].

Definition setSwingVert (value : JsVal) : M unit :=
  _sendCommand encryptionService [swingVert_code cmd] [value].

Definition setPowerSave (value : JsVal) : M unit :=
  _sendCommand encryptionService [powerSave_code cmd] [one_or_zero value].

Definition setLights (value : JsVal) : M unit :=
  _sendCommand encryptionService [lights_code cmd] [one_or_zero value].

Definition setHealthMode (value : JsVal) : M unit :=
  _sendCommand encryptionService [health_code cmd] [one_or_zero value].

Definition setQuietMode (value : JsVal) : M unit :=
  _sendCommand encryptionService [quiet_code cmd] [value].

Definition setBlow (value : JsVal) : M unit :=
  _sendCommand encryptionService [blow_code cmd] [one_or_zero value].

Definition setAir (value : JsVal) : M unit :=
  _sendCommand encryptionService [air_code cmd] [value].

Definition setSleepMode (value : JsVal) : M unit :=
  _sendCommand encryptionService [sleep_code cmd] [one_or_zero value].

Definition setTurbo (value : JsVal) : M unit :=
  _sendCommand encryptionService [turbo_code cmd] [one_or_zero value].

(** A call of one of the fourteen setters. *)
Inductive Setter : Type :=
  | SetPower (value : JsVal)
  | SetTemp (value unit_ : JsVal)
  | SetMode (value : JsVal)
  | SetFanSpeed (value : JsVal)
  | SetSwingHor (value : JsVal)
  | SetSwingVert (value : JsVal)
  | SetPowerSave (value : JsVal)
  | SetLights (value : JsVal)
  | SetHealthMode (value : JsVal)
  | SetQuietMode (value : JsVal)
  | SetBlow (value : JsVal)
  | SetAir (value : JsVal)
  | SetSleepMode (value : JsVal)
  | SetTurbo (value : JsVal).

Definition call (c : Setter) : M unit :=
  match c with
  | SetPower value => setPower value
  | SetTemp value unit_ => setTemp value unit_
  | SetMode value => setMode value
  | SetFanSpeed value => setFanSpeed value
  | SetSwingHor value => setSwingHor value
  | SetSwingVert value => setSwingVert value
  | SetPowerSave value => setPowerSave value
  | SetLights value => setLights value
  | SetHealthMode value => setHealthMode value
  | SetQuietMode value => setQuietMode value
  | SetBlow value => setBlow value
  | SetAir value => setAir value
  | SetSleepMode value => setSleepMode value
  | SetTurbo value => setTurbo value
  end.

End Setters.

(** ** Vocabulary of the statements *)

(** The claims' reading of "the version string starts with V2.". *)
Definition starts_with_V2 (ver : option string) : bool :=
  match ver with
  | Some v => String.prefix "V2." v
  | None => false
  end.

Section Reading.

Variable svc : EncryptionService.
Variable cmd_codes : list string.

Definition state_after (s : Session) (x : Stimulus) : Session :=
  state_of (react svc cmd_codes x s).

Definition events_after (s : Session) (x : Stimulus) : list Event :=
  events_of (react svc cmd_codes x s).

(** What [_handleResponse] gets out of a datagram in session [s]: the parsed
    outer object and the payload returned by the decrypt operation of the
    session's version. [None] when the parse or the decrypt throws. *)
Definition payload_of (s : Session) (msg : Buffer) : option (Message * Pack) :=
  match JSON_parse msg with
  | None => None
  | Some message =>
      let key := decrypt_key message (device s) in
      let opened :=
        if encryptionVersion s =? 1 then decrypt svc message key
        else if encryptionVersion s =? 2 then decrypt_v2 svc message key
        else None in
      match opened with
      | Some pack => Some (message, pack)
      | None => None
      end
  end.

(** The session at the end of a run, and the events of the run. *)
Definition final (s : Session) (xs : list Stimulus) : Session :=
  (run svc cmd_codes s xs).1.

Definition trace (s : Session) (xs : list Stimulus) : list Event :=
  (run svc cmd_codes s xs).2.

(** The stimulus is a datagram that session [s] opens to a payload
    satisfying [p]. *)
Definition inbound_with (p : Pack -> bool) (s : Session) (x : Stimulus) : bool :=
  match x with
  | Inbound msg _ =>
      match payload_of s msg with
      | Some (_, pack) => p pack
      | None => false
      end
  | _ => false
  end.

Definition is_dev_reply : Session -> Stimulus -> bool :=
  inbound_with (fun pack => eq_lit (pack_t pack) "dev").

(** A [dev] reply whose version string starts with "V2.". *)
Definition is_V2_dev_reply : Session -> Stimulus -> bool :=
  inbound_with (fun pack =>
    eq_lit (pack_t pack) "dev" && starts_with_V2 (pack_ver pack)).

(** A [bindok] that arrives while the device id is set. *)
Definition is_honoured_bindok (s : Session) (x : Stimulus) : bool :=
  inbound_with (fun pack => eq_lit (pack_t pack) "bindok") s x
  && truthy (dev_id (device s)).

(** The number of honoured [bindok] payloads in a run. *)
Fixpoint honoured_bindoks (s : Session) (xs : list Stimulus) : nat :=
  match xs with
  | [] => 0
  | x :: rest =>
      ((if is_honoured_bindok s x then 1 else 0)
       + honoured_bindoks (state_after s x) rest)%nat
  end.

(** No stimulus of the run is a [dev] reply. *)
Fixpoint dev_free (s : Session) (xs : list Stimulus) : bool :=
  match xs with
  | [] => true
  | x :: rest => negb (is_dev_reply s x) && dev_free (state_after s x) rest
  end.

End Reading.

(** [d] with [props] replaced. *)
Definition with_props (ps : gmap string JsVal) (d : Device) : Device :=
  {| dev_id := dev_id d; dev_name := dev_name d;
     dev_address := dev_address d; dev_port := dev_port d;
     dev_bound := dev_bound d; dev_props := Some ps;
     dev_key := dev_key d |}.

(** [d] with [bound] set and [key] replaced. *)
Definition confirmed (key : option string) (d : Device) : Device :=
  {| dev_id := dev_id d; dev_name := dev_name d;
     dev_address := dev_address d; dev_port := dev_port d;
     dev_bound := Some true; dev_props := dev_props d;
     dev_key := key |}.

(** [properties[code] = value] for the pairs of two parallel lists, aligned
    by position from index [i] on, in list order. *)
Fixpoint write_pairs_from (i : nat) (codes : list string) (values : list JsVal)
    (ps : gmap string JsVal) : gmap string JsVal :=
  match codes with
  | [] => ps
  | code :: rest =>
      write_pairs_from (S i) rest values (<[code := index values i]> ps)
  end.

Definition write_pairs : list string -> list JsVal -> gmap string JsVal ->
    gmap string JsVal :=
  write_pairs_from 0%nat.

(** The value list of a [res] payload: the primary field [p] when present,
    else the alternate field [val]. *)
Definition res_values (pack : Pack) : option (list JsVal) :=
  match pack_p pack with
  | Some p => Some p
  | None => pack_val pack
  end.

(** No entry of [props] is removed: the object is still there and has at
    least the keys it had. *)
Definition props_kept (o o' : option (gmap string JsVal)) : Prop :=
  match o, o' with
  | Some ps, Some ps' => dom ps ⊆ dom ps'
  | None, None => True
  | _, _ => False
  end.

(** Nothing of the device changed but, possibly, values in [props]. *)
Definition device_kept (d d' : Device) : Prop :=
  dev_id d' = dev_id d /\ dev_name d' = dev_name d /\
  dev_address d' = dev_address d /\ dev_port d' = dev_port d /\
  dev_bound d' = dev_bound d /\ dev_key d' = dev_key d /\
  props_kept (dev_props d) (dev_props d').

Definition session_kept (s s' : Session) : Prop :=
  encryptionVersion s' = encryptionVersion s /\
  device_kept (device s) (device s').

(** [pack] is a status payload: a [dat] or a [res]. *)
Definition is_status (pack : Pack) : Prop :=
  pack_t pack = Some "dat" \/ pack_t pack = Some "res".

(** [pack] is a status payload with its two parallel lists: a [dat] with
    [cols] and [dat], or a [res] with [opt] and its value list. *)
Definition carries (pack : Pack) (codes : list string) (values : list JsVal) : Prop :=
  (pack_t pack = Some "dat" /\ pack_cols pack = Some codes /\
   pack_dat pack = Some values) \/
  (pack_t pack = Some "res" /\ pack_opt pack = Some codes /\
   res_values pack = Some values).

(** The callback that goes with a status payload: [onStatus] for [dat],
    [onUpdate] for [res]. *)
Definition callback_of (pack : Pack) (d : Device) : Event :=
  if eq_lit (pack_t pack) "dat" then OnStatus d else OnUpdate d.

(** [bound] stays true and no entry of [props] goes away. *)
Definition bound_and_props_kept (s s' : Session) : Prop :=
  (dev_bound (device s) = Some true -> dev_bound (device s') = Some true) /\
  props_kept (dev_props (device s)) (dev_props (device s')).

(** A callback on a status payload, or a log line. *)
Definition is_report (e : Event) : Prop :=
  match e with
  | OnStatus _ | OnUpdate _ | ConsoleLog _ => True
  | _ => False
  end.

(** [request] is [message] encrypted under [key] with the operation of
    version [v]: under version 1 the ciphertext of [encrypt] and no [tag]
    key, under version 2 the ciphertext and the tag of [encrypt_v2]. *)
Definition sealed_by (svc : EncryptionService) (v : Z) (message : Request)
    (key : option string) (request : Envelope) : Prop :=
  (v = 1 /\ env_tag request = None /\
   env_pack request = Some (encrypt svc message key)) \/
  (v = 2 /\ env_tag request = Some (enc_tag (encrypt_v2 svc message key)) /\
   env_pack request = Some (enc_pack (encrypt_v2 svc message key))).

(** Modelled from the spec: [encryptionService.js] is not among the sources.
    The contract the spec gives for version 2 is
    [encrypt(payload, key?) -> {ciphertext, tag}] with [tag] an
    authentication tag, so the tag is never the empty string. *)
Definition returns_a_tag (svc : EncryptionService) : Prop :=
  forall (m : Request) (k : option string), enc_tag (encrypt_v2 svc m k) <> "".

(** The claims' reading of "log and discard": the handler leaves the device
    as it is, writes a log line and returns without throwing. *)
Definition absorbed_with_log (s : Session)
    (r : Session * list Event * (Exn + unit)) : Prop :=
  device (state_of r) = device s /\
  (exists line, In (ConsoleLog line) (events_of r)) /\
  outcome_of r = inr tt.

Fixpoint count_OnConnected (evs : list Event) : nat :=
  match evs with
  | [] => 0
  | OnConnected _ :: rest => S (count_OnConnected rest)
  | _ :: rest => count_OnConnected rest
  end.

(** ** Vocabulary of the further statements *)

(** What [encryptedBoundMessage] holds once the version has been looked at:
    the ciphertext of the version's encrypt operation, nothing with a
    version that is neither 1 nor 2. *)
Definition ciphertext (svc : EncryptionService) (v : Z) (message : Request)
    (key : option string) : option string :=
  if v =? 1 then Some (encrypt svc message key)
  else if v =? 2 then Some (enc_pack (encrypt_v2 svc message key))
  else None.

(** A session that a run from the constructor can be in. *)
Definition reachable (svc : EncryptionService) (cmd_codes : list string)
    (s : Session) : Prop :=
  exists xs, s = final svc cmd_codes new_Device xs.

(** A bound device has an id, and a device with an id has a [props]
    object. *)
Definition registered (s : Session) : Prop :=
  (dev_bound (device s) = Some true -> truthy (dev_id (device s)) = true) /\
  (truthy (dev_id (device s)) = true -> is_Some (dev_props (device s))).

(** What [_setDevice] writes besides [bound] and [props]. *)
Definition identity_kept (d d' : Device) : Prop :=
  dev_id d' = dev_id d /\ dev_name d' = dev_name d /\
  dev_address d' = dev_address d /\ dev_port d' = dev_port d.

(** The fields of the session outside [device] and the version. *)
Definition counters_kept (s s' : Session) : Prop :=
  tag s' = tag s /\ packetSentNo s' = packetSentNo s /\
  packetReceivedNo s' = packetReceivedNo s.

(** The datagrams among the stimuli of a run. *)
Fixpoint count_inbound (xs : list Stimulus) : nat :=
  match xs with
  | [] => 0
  | Inbound _ _ :: rest => S (count_inbound rest)
  | _ :: rest => count_inbound rest
  end.

(** The calls of [socket.send] among the events. *)
Fixpoint count_sent (evs : list Event) : nat :=
  match evs with
  | [] => 0
  | Broadcast _ :: rest | Send _ _ _ :: rest => S (count_sent rest)
  | _ :: rest => count_sent rest
  end.

Fixpoint count_SetInterval (evs : list Event) : nat :=
  match evs with
  | [] => 0
  | SetInterval _ _ :: rest => S (count_SetInterval rest)
  | _ :: rest => count_SetInterval rest
  end.

(** Every timer among the events is the status poll on 3000 ms. *)
Definition polls_every_3s (e : Event) : Prop :=
  match e with
  | SetInterval task ms => task = RequestDeviceStatus /\ ms = 3000
  | _ => True
  end.

(** Neither a timer nor the connected-callback. *)
Definition is_quiet (e : Event) : Prop :=
  match e with
  | SetInterval _ _ | OnConnected _ => False
  | _ => True
  end.

(** The fields every [request] literal has, whatever the tag. *)
Definition addressed_to (d : Device) (request : Envelope) (port : option Z)
    (address : option string) : Prop :=
  env_tcid request = dev_id d /\ env_cid request = "app" /\
  env_t request = "pack" /\ env_uid request = 0 /\
  port = dev_port d /\ address = dev_address d.

(** The sender of a datagram. *)
Definition sender (x : Stimulus) : option RInfo :=
  match x with
  | Inbound _ rinfo => Some rinfo
  | _ => None
  end.

(** The last position at which [code] occurs in [codes]. *)
Definition last_at (codes : list string) (i : nat) (code : string) : Prop :=
  codes !! i = Some code /\ code ∉ drop (S i) codes.

Arguments state_of {A} r /.
Arguments events_of {A} r /.
Arguments outcome_of {A} r /.

(** ** A concrete service and concrete traffic

    A codebook stands for the cipher: the ciphertext names an entry of the
    book, whatever the key. It serves to run the definitions on traffic. *)
Module Demo.

Definition dev_v1 : Pack :=
  {| pack_t := Some "dev"; pack_ver := None; pack_cid := Some "A1B2";
     pack_name := Some "AC1"; pack_key := None; pack_cols := None;
     pack_dat := None; pack_opt := None; pack_p := None; pack_val := None |}.

Definition dev_v2 : Pack :=
  {| pack_t := Some "dev"; pack_ver := Some "V2.0.0"; pack_cid := Some "C3D4";
     pack_name := Some "AC2"; pack_key := None; pack_cols := None;
     pack_dat := None; pack_opt := None; pack_p := None; pack_val := None |}.

Definition bindok (k : string) : Pack :=
  {| pack_t := Some "bindok"; pack_ver := None; pack_cid := None;
     pack_name := None; pack_key := Some k; pack_cols := None;
     pack_dat := None; pack_opt := None; pack_p := None; pack_val := None |}.

Definition dat (cols : list string) (values : list JsVal) : Pack :=
  {| pack_t := Some "dat"; pack_ver := None; pack_cid := None;
     pack_name := None; pack_key := None; pack_cols := Some cols;
     pack_dat := Some values; pack_opt := None; pack_p := None;
     pack_val := None |}.

Definition res_p (opt : list string) (values : list JsVal) : Pack :=
  {| pack_t := Some "res"; pack_ver := None; pack_cid := None;
     pack_name := None; pack_key := None; pack_cols := None;
     pack_dat := None; pack_opt := Some opt; pack_p := Some values;
     pack_val := None |}.

Definition res_val (opt : list string) (values : list JsVal) : Pack :=
  {| pack_t := Some "res"; pack_ver := None; pack_cid := None;
     pack_name := None; pack_key := None; pack_cols := None;
     pack_dat := None; pack_opt := Some opt; pack_p := None;
     pack_val := Some values |}.

Definition book : list (string * Pack) :=
  [ ("dev-v1", dev_v1);
    ("dev-v2", dev_v2);
    ("bindok-1", bindok "K1");
    ("bindok-2", bindok "K2");
    ("dat-1", dat ["Pow"; "SetTem"] [JNum 1; JNum 24]);
    ("dat-2", dat ["SetTem"; "Pow"] [JNum 26; JNum 0]);
    ("res-p", res_p ["Pow"] [JNum 1]);
    ("res-val", res_val ["Pow"] [JNum 0]) ].

Fixpoint lookup_book (b : list (string * Pack)) (c : string) : option Pack :=
  match b with
  | [] => None
  | (c', p) :: rest => if String.eqb c c' then Some p else lookup_book rest c
  end.

Definition open (message : Message) (key : option string) : option Pack :=
  match msg_pack message with
  | Some c => lookup_book book c
  | None => None
  end.

Definition service : EncryptionService :=
  {| encrypt := fun _ _ => "sealed-v1";
     encrypt_v2 := fun _ _ => {| enc_pack := "sealed-v2"; enc_tag := "TAG" |};
     decrypt := open;
     decrypt_v2 := open |}.

Definition catalog : list string := ["Pow"; "Mod"; "SetTem"].

(** A datagram from the device [OUTER]: handshake traffic has [i = 1],
    steady-state traffic [i = 0]. *)
Definition wire (i : Z) (c : string) : Buffer :=
  JsonText {| msg_cid := Some "OUTER"; msg_i := Some i; msg_tag := None;
              msg_pack := Some c |}.

Definition from : RInfo := {| rinfo_address := "10.0.0.5"; rinfo_port := 7000 |}.

Definition handshake (c : string) : Stimulus := Inbound (wire 1 c) from.
Definition report (c : string) : Stimulus := Inbound (wire 0 c) from.

(** The poll of a session on version 2 bound to [C3D4]. *)
Definition v2_poll : Envelope :=
  {| env_tcid := Some "C3D4"; env_cid := "app"; env_i := 0; env_t := "pack";
     env_uid := 0; env_tag := Some "TAG"; env_pack := Some "sealed-v2" |}.

(** A [bindok] whose envelope names another sender. *)
Definition stray_bindok : Buffer :=
  JsonText {| msg_cid := Some "STRAY"; msg_i := Some 1; msg_tag := None;
              msg_pack := Some "bindok-2" |}.

(** The session after a version-1 handshake. *)
Definition bound_session : Session :=
  final service catalog new_Device [handshake "dev-v1"; handshake "bindok-1"].

(** A catalog for the setters. *)
Definition enums : CommandEnums :=
  {| power_code := "Pow"; temperatureUnit_code := "TemUn";
     temperatureUnit_celsius := JNum 0; temperature_code := "SetTem";
     mode_code := "Mod"; fanSpeed_code := "WdSpd"; swingHor_code := "SwingLfRig";
     swingVert_code := "SwUpDn"; powerSave_code := "SvSt"; lights_code := "Lig";
     health_code := "Health"; quiet_code := "Quiet"; blow_code := "Blo";
     air_code := "Air"; sleep_code := "SwhSlp"; turbo_code := "Tur" |}.

(** Payloads that lack a list, and one of no known kind. *)
Definition dat_no_values : Pack :=
  {| pack_t := Some "dat"; pack_ver := None; pack_cid := None;
     pack_name := None; pack_key := None; pack_cols := Some ["Pow"];
     pack_dat := None; pack_opt := None; pack_p := None; pack_val := None |}.

Definition dat_empty : Pack :=
  {| pack_t := Some "dat"; pack_ver := None; pack_cid := None;
     pack_name := None; pack_key := None; pack_cols := Some [];
     pack_dat := None; pack_opt := None; pack_p := None; pack_val := None |}.

Definition pong : Pack :=
  {| pack_t := Some "pong"; pack_ver := None; pack_cid := None;
     pack_name := None; pack_key := None; pack_cols := None;
     pack_dat := None; pack_opt := None; pack_p := None; pack_val := None |}.

(** A [dev] reply whose envelope and payload carry no id. *)
Definition dev_anonymous : Pack :=
  {| pack_t := Some "dev"; pack_ver := None; pack_cid := None;
     pack_name := Some "AC3"; pack_key := None; pack_cols := None;
     pack_dat := None; pack_opt := None; pack_p := None; pack_val := None |}.

Definition book2 : list (string * Pack) :=
  [ ("dat-no-values", dat_no_values);
    ("dat-empty", dat_empty);
    ("dat-short", dat ["Pow"; "SetTem"] [JNum 1]);
    ("pong", pong);
    ("dev-anonymous", dev_anonymous) ] ++ book.

Definition open2 (message : Message) (key : option string) : option Pack :=
  match msg_pack message with
  | Some c => lookup_book book2 c
  | None => None
  end.

(** The same service with the larger book. *)
Definition service2 : EncryptionService :=
  {| encrypt := fun _ _ => "sealed-v1";
     encrypt_v2 := fun _ _ => {| enc_pack := "sealed-v2"; enc_tag := "TAG" |};
     decrypt := open2;
     decrypt_v2 := open2 |}.

Definition bound_session2 : Session :=
  final service2 catalog new_Device [handshake "dev-v1"; handshake "bindok-1"].

(** A datagram whose envelope has no [cid]. *)
Definition nameless (c : string) : Buffer :=
  JsonText {| msg_cid := None; msg_i := Some 1; msg_tag := None;
              msg_pack := Some c |}.

(** Another sender. *)
Definition elsewhere : RInfo :=
  {| rinfo_address := "10.0.0.9"; rinfo_port := 7001 |}.

End Demo.



(** ** Proof support *)

Arguments write_prop : simpl never.
Arguments store_dat : simpl never.
Arguments store_res : simpl never.
Arguments dispatch : simpl never.
Arguments _handleResponse : simpl never.
Arguments _sendRequest : simpl never.
Arguments _sendBindRequest : simpl never.

Ltac unfold_js :=
  unfold _setDevice, _sendBindRequest, _confirmBinding,
    _sendRequest, _requestDeviceStatus, _sendCommand, _connectToDevice,
    write_prop, socket_send, defined, bind, ret, throw, gets, modify, emit.

Lemma ver_is_V2_starts_with ver : ver_is_V2 ver = starts_with_V2 ver.
Proof.
  destruct ver as [v|]; [|reflexivity].
  unfold ver_is_V2, starts_with_V2, truthy.
  destruct v; reflexivity.
Qed.

Lemma set_device_with_props_id (s : Session) (ps : gmap string JsVal) :
  dev_props (device s) = Some ps ->
  set_device (with_props ps (device s)) s = s.
Proof.
  destruct s as [d v tg n1 n2 b]; destruct d; cbn.
  intros ->. reflexivity.
Qed.

Lemma not_proto (code : string) :
  code <> "__proto__" -> forall b, String.eqb code "__proto__" && b = false.
Proof. intros H b. apply String.eqb_neq in H. rewrite H. reflexivity. Qed.

(** Why the statements about written codes leave [__proto__] out. On a
    [props] that still inherits, the assignment to [__proto__] adds no key;
    with [null] it takes the prototype away, and the same assignment made
    again then adds the key. *)
Lemma write_prop_proto (value : JsVal) (s : Session) (ps : gmap string JsVal) :
  dev_props (device s) = Some ps ->
  props_inherits s = true ->
  let r := write_prop "__proto__" value s in
  outcome_of r = inr tt /\
  device (state_of r) = device s /\
  (value <> JNull -> state_of r = s) /\
  (value = JNull ->
   dev_props (device (state_of (write_prop "__proto__" value (state_of r)))) =
     Some (<["__proto__" := JNull]> ps)).
Proof.
  intros Hps Hin. unfold write_prop. unfold_js. rewrite Hps, Hin. cbn.
  destruct value; cbn; repeat split; try congruence.
  intros _. rewrite Hps. reflexivity.
Qed.

Lemma store_dat_step (pack : Pack) (values : list JsVal) (col : string)
    (i : nat) (s : Session) (ps : gmap string JsVal) :
  pack_dat pack = Some values ->
  dev_props (device s) = Some ps ->
  col <> "__proto__" ->
  store_dat pack col i s =
    (set_device (with_props (<[col := index values i]> ps) (device s)) s,
     [], inr tt).
Proof.
  intros Hdat Hps Hcol. unfold store_dat. rewrite Hdat. unfold_js.
  rewrite Hps. cbn. rewrite (not_proto col Hcol). reflexivity.
Qed.

Lemma store_res_step (pack : Pack) (values : list JsVal) (opt : string)
    (i : nat) (s : Session) (ps : gmap string JsVal) :
  res_values pack = Some values ->
  dev_props (device s) = Some ps ->
  opt <> "__proto__" ->
  store_res pack opt i s =
    (set_device (with_props (<[opt := index values i]> ps) (device s)) s,
     [], inr tt).
Proof.
  intros Hval Hps Hopt. unfold store_res. unfold res_values in Hval.
  destruct (pack_p pack) as [p|].
  - injection Hval as ->. unfold_js. rewrite Hps. cbn.
    rewrite (not_proto opt Hopt). reflexivity.
  - rewrite Hval. unfold_js. rewrite Hps. cbn.
    rewrite (not_proto opt Hopt). reflexivity.
Qed.

(** A loop whose callback writes one pair per element, run to its end. *)
Lemma forEach_writes (f : string -> nat -> M unit) (values : list JsVal) :
  (forall code i s ps,
     dev_props (device s) = Some ps ->
     code <> "__proto__" ->
     f code i s =
       (set_device (with_props (<[code := index values i]> ps) (device s)) s,
        [], inr tt)) ->
  forall (codes : list string) (i : nat) (s : Session) (ps : gmap string JsVal),
    dev_props (device s) = Some ps ->
    "__proto__" ∉ codes ->
    forEach_from i codes f s =
      (set_device (with_props (write_pairs_from i codes values ps) (device s)) s,
       [], inr tt).
Proof.
  intros Hf. induction codes as [|code rest IH]; intros i s ps Hps Hnot; cbn.
  - rewrite set_device_with_props_id by assumption. reflexivity.
  - apply not_elem_of_cons in Hnot as [Hne Hrest].
    unfold bind. rewrite (Hf code i s ps Hps) by congruence.
    erewrite IH by (reflexivity || assumption). reflexivity.
Qed.

(** The [dat] loop, run to its end. *)
Lemma forEach_store_dat (pack : Pack) (values : list JsVal) (cols : list string)
    (s : Session) (ps : gmap string JsVal) :
  pack_dat pack = Some values ->
  dev_props (device s) = Some ps ->
  "__proto__" ∉ cols ->
  forEach cols (store_dat pack) s =
    (set_device (with_props (write_pairs cols values ps) (device s)) s,
     [], inr tt).
Proof.
  intros Hdat Hps Hnot. apply forEach_writes; [|assumption|assumption].
  intros. apply store_dat_step; assumption.
Qed.

(** The [res] loop, run to its end. *)
Lemma forEach_store_res (pack : Pack) (values : list JsVal) (opt : list string)
    (s : Session) (ps : gmap string JsVal) :
  res_values pack = Some values ->
  dev_props (device s) = Some ps ->
  "__proto__" ∉ opt ->
  forEach opt (store_res pack) s =
    (set_device (with_props (write_pairs opt values ps) (device s)) s,
     [], inr tt).
Proof.
  intros Hval Hps Hnot. apply forEach_writes; [|assumption|assumption].
  intros. apply store_res_step; assumption.
Qed.

Section Handler.

Variable svc : EncryptionService.

(** A datagram that opens is handed to [dispatch] with nothing changed but
    the receive counter. *)
Lemma handle_opened (s : Session) (msg : Buffer) (rinfo : RInfo)
    (message : Message) (pack : Pack) :
  payload_of svc s msg = Some (message, pack) ->
  _handleResponse svc msg rinfo s =
    dispatch svc message pack rinfo (incr_packetReceivedNo s).
Proof.
  unfold payload_of, _handleResponse. generalize (dispatch svc). intros D H.
  destruct (JSON_parse msg) as [m|]; [|discriminate].
  unfold bind, modify, gets, ret, throw. cbn in *.
  destruct (encryptionVersion s =? 1).
  - destruct (decrypt svc m _) as [pk|]; [|discriminate].
    injection H as -> ->. cbn.
    destruct (D _ _ _ _) as [[s2 ev2] r]. reflexivity.
  - destruct (encryptionVersion s =? 2); [|discriminate].
    destruct (decrypt_v2 svc m _) as [pk|]; [|discriminate].
    injection H as -> ->. cbn.
    destruct (D _ _ _ _) as [[s2 ev2] r]. reflexivity.
Qed.

(** A datagram that does not open: the handler throws, having counted the
    datagram and done nothing else. *)
Lemma handle_failed (s : Session) (msg : Buffer) (rinfo : RInfo) :
  payload_of svc s msg = None ->
  exists e, _handleResponse svc msg rinfo s = (incr_packetReceivedNo s, [], inl e).
Proof.
  unfold payload_of, _handleResponse. intros H.
  unfold bind, modify, gets, ret, throw.
  destruct (JSON_parse msg) as [m|]; cbn in *; [|eauto].
  destruct (encryptionVersion s =? 1).
  - destruct (decrypt svc m _) as [pk|]; [discriminate|]. cbn. eauto.
  - destruct (encryptionVersion s =? 2); cbn; [|eauto].
    destruct (decrypt_v2 svc m _) as [pk|]; [discriminate|]. cbn. eauto.
Qed.

(** The [dev] branch of [dispatch]. *)
Lemma dispatch_dev (s : Session) (message : Message) (pack : Pack) (rinfo : RInfo) :
  pack_t pack = Some "dev" ->
  let upgrade := (encryptionVersion s =? 1) && starts_with_V2 (pack_ver pack) in
  let id' := if upgrade then pack_cid pack else msg_cid message in
  let r := dispatch svc message pack rinfo s in
  outcome_of r = inr tt /\
  encryptionVersion (state_of r) = (if upgrade then 2 else encryptionVersion s) /\
  device (state_of r) =
    {| dev_id := id'; dev_name := pack_name pack;
       dev_address := Some (rinfo_address rinfo);
       dev_port := Some (rinfo_port rinfo);
       dev_bound := Some false; dev_props := Some ∅;
       dev_key := dev_key (device s) |} /\
  exists request,
    events_of r =
      [ConsoleLog (LogNewDevice id' (Some (rinfo_address rinfo)));
       Send request (Some (rinfo_port rinfo)) (Some (rinfo_address rinfo))].
Proof.
  intros Ht. unfold dispatch. unfold_js. rewrite Ht. cbn.
  rewrite ver_is_V2_starts_with.
  destruct ((encryptionVersion s =? 1) && starts_with_V2 (pack_ver pack)); cbn.
  - repeat split; eauto.
  - destruct (encryptionVersion s =? 1); cbn; [repeat split; eauto|].
    destruct (encryptionVersion s =? 2); cbn; repeat split; eauto.
Qed.

(** The [bindok] branch of [dispatch]. *)
Lemma dispatch_bindok (s : Session) (message : Message) (pack : Pack) (rinfo : RInfo) :
  pack_t pack = Some "bindok" ->
  truthy (dev_id (device s)) = true ->
  let d' := confirmed (pack_key pack) (device s) in
  dispatch svc message pack rinfo s =
    (set_device d' s,
     [ConsoleLog (LogBound (dev_id (device s)));
      SetInterval RequestDeviceStatus 3000;
      OnConnected d'],
     inr tt).
Proof.
  intros Ht Hid. unfold dispatch. unfold_js. rewrite Ht, Hid. reflexivity.
Qed.

(** The last line of [dispatch]: no branch was taken. *)
Lemma dispatch_unknown (s : Session) (message : Message) (pack : Pack) (rinfo : RInfo) :
  eq_lit (pack_t pack) "dev" = false ->
  eq_lit (pack_t pack) "bindok" && truthy (dev_id (device s)) = false ->
  (eq_lit (pack_t pack) "dat" || eq_lit (pack_t pack) "res")
    && bool_decide (dev_bound (device s) = Some true) = false ->
  dispatch svc message pack rinfo s =
    (s, [ConsoleLog (LogUnknown (pack_t pack))], inr tt).
Proof.
  intros H1 H2 H3. unfold dispatch. unfold_js. rewrite H1, H2.
  destruct (eq_lit (pack_t pack) "dat"), (eq_lit (pack_t pack) "res");
    cbn in *; rewrite ?H3; reflexivity.
Qed.

(** The [dat] branch of [dispatch] on a payload that has both lists. *)
Lemma dispatch_dat (s : Session) (message : Message) (pack : Pack) (rinfo : RInfo)
    (cols : list string) (values : list JsVal) (ps : gmap string JsVal) :
  pack_t pack = Some "dat" ->
  pack_cols pack = Some cols ->
  pack_dat pack = Some values ->
  dev_bound (device s) = Some true ->
  dev_props (device s) = Some ps ->
  "__proto__" ∉ cols ->
  let d' := with_props (write_pairs cols values ps) (device s) in
  dispatch svc message pack rinfo s = (set_device d' s, [OnStatus d'], inr tt).
Proof.
  intros Ht Hcols Hdat Hb Hps Hnot. unfold dispatch.
  unfold bind, gets, defined, ret, emit. rewrite Ht, Hcols, Hb. cbn -[forEach].
  rewrite bool_decide_eq_true_2 by reflexivity. cbn -[forEach].
  rewrite (forEach_store_dat pack values cols s ps Hdat Hps Hnot). reflexivity.
Qed.

(** The [res] branch of [dispatch] on a payload that has its lists. *)
Lemma dispatch_res (s : Session) (message : Message) (pack : Pack) (rinfo : RInfo)
    (opt : list string) (values : list JsVal) (ps : gmap string JsVal) :
  pack_t pack = Some "res" ->
  pack_opt pack = Some opt ->
  res_values pack = Some values ->
  dev_bound (device s) = Some true ->
  dev_props (device s) = Some ps ->
  "__proto__" ∉ opt ->
  let d' := with_props (write_pairs opt values ps) (device s) in
  dispatch svc message pack rinfo s = (set_device d' s, [OnUpdate d'], inr tt).
Proof.
  intros Ht Hopt Hval Hb Hps Hnot. unfold dispatch.
  unfold bind, gets, defined, ret, emit. rewrite Ht, Hopt, Hb. cbn -[forEach].
  rewrite bool_decide_eq_true_2 by reflexivity. cbn -[forEach].
  rewrite (forEach_store_res pack values opt s ps Hval Hps Hnot). reflexivity.
Qed.

End Handler.

(** ** What a reaction can change *)

Lemma props_kept_refl o : props_kept o o.
Proof. destruct o; cbn; [set_solver|exact I]. Qed.

Lemma props_kept_trans o1 o2 o3 :
  props_kept o1 o2 -> props_kept o2 o3 -> props_kept o1 o3.
Proof. destruct o1, o2, o3; cbn; try tauto. set_solver. Qed.

Lemma session_kept_refl s : session_kept s s.
Proof. unfold session_kept, device_kept. auto 10 using props_kept_refl. Qed.

Lemma session_kept_trans s1 s2 s3 :
  session_kept s1 s2 -> session_kept s2 s3 -> session_kept s1 s3.
Proof.
  unfold session_kept, device_kept.
  intros (?&?&?&?&?&?&?&?) (?&?&?&?&?&?&?&?).
  repeat split; try congruence. eauto using props_kept_trans.
Qed.

Lemma write_prop_kept (code : string) (value : JsVal) (s : Session) :
  session_kept s (state_of (write_prop code value s)) /\
  events_of (write_prop code value s) = [].
Proof.
  unfold write_prop. unfold_js.
  destruct (dev_props (device s)) as [ps|] eqn:Hps; cbn.
  - destruct (String.eqb code "__proto__" && props_inherits s).
    + destruct value; cbn; (split; [|reflexivity]);
        unfold session_kept, device_kept; cbn;
        auto 10 using props_kept_refl.
    + cbn. split; [|reflexivity]. unfold session_kept, device_kept; cbn.
      repeat split. rewrite Hps. unfold props_kept.
      rewrite dom_insert_L. set_solver.
  - split; [apply session_kept_refl|reflexivity].
Qed.

Lemma store_dat_kept (pack : Pack) (col : string) (i : nat) (s : Session) :
  session_kept s (state_of (store_dat pack col i s)) /\
  events_of (store_dat pack col i s) = [].
Proof.
  unfold store_dat, bind, defined.
  destruct (pack_dat pack) as [values|]; cbn.
  - destruct (write_prop_kept col (index values i) s) as [Hk He].
    destruct (write_prop _ _ s) as [[s' evs] [e|[]]]; cbn in *; subst; auto.
  - split; [apply session_kept_refl|reflexivity].
Qed.

Lemma store_res_kept (pack : Pack) (opt : string) (i : nat) (s : Session) :
  session_kept s (state_of (store_res pack opt i s)) /\
  events_of (store_res pack opt i s) = [].
Proof.
  unfold store_res, bind, defined.
  destruct (pack_p pack) as [p|]; cbn.
  - destruct (write_prop_kept opt (index p i) s) as [Hk He].
    destruct (write_prop _ _ s) as [[s' evs] [e|[]]]; cbn in *; subst; auto.
  - destruct (pack_val pack) as [val|]; cbn.
    + destruct (write_prop_kept opt (index val i) s) as [Hk He].
      destruct (write_prop _ _ s) as [[s' evs] [e|[]]]; cbn in *; subst; auto.
    + split; [apply session_kept_refl|reflexivity].
Qed.

(** A loop of callbacks that only write [props] only writes [props],
    however far it gets. *)
Lemma forEach_kept (f : string -> nat -> M unit) :
  (forall c i s,
     session_kept s (state_of (f c i s)) /\ events_of (f c i s) = []) ->
  forall (l : list string) (i : nat) (s : Session),
    session_kept s (state_of (forEach_from i l f s)) /\
    events_of (forEach_from i l f s) = [].
Proof.
  intros Hf. induction l as [|c rest IH]; intros i s; cbn.
  - split; [apply session_kept_refl|reflexivity].
  - unfold bind. destruct (Hf c i s) as [Hk He].
    destruct (f c i s) as [[s1 ev1] [e|[]]]; cbn in *; subst; [auto|].
    destruct (IH (S i) s1) as [Hk' He'].
    destruct (forEach_from (S i) rest f s1) as [[s2 ev2] r]; cbn in *; subst.
    eauto using session_kept_trans.
Qed.

Section Reactions.

Variable svc : EncryptionService.
Variable cmd_codes : list string.

(** Every branch of [dispatch] but [dev] and an honoured [bindok] leaves the
    session as it is, values of [props] apart, and does not call
    [onConnected]. *)
Lemma dispatch_kept (s : Session) (message : Message) (pack : Pack) (rinfo : RInfo) :
  eq_lit (pack_t pack) "dev" = false ->
  eq_lit (pack_t pack) "bindok" && truthy (dev_id (device s)) = false ->
  let r := dispatch svc message pack rinfo s in
  session_kept s (state_of r) /\ Forall is_report (events_of r).
Proof.
  intros H1 H2. unfold dispatch, forEach.
  unfold bind, gets, ret, emit, defined, throw. rewrite H1, H2. cbn.
  destruct (eq_lit (pack_t pack) "dat" && _); cbn.
  { destruct (pack_cols pack) as [cols|]; cbn;
      [|split; [apply session_kept_refl|constructor]].
    destruct (forEach_kept _ (store_dat_kept pack) cols 0%nat s) as [Hk He].
    destruct (forEach_from 0 cols _ s) as [[s1 ev1] [e|[]]];
      cbn in *; subst; split; auto; repeat constructor. }
  destruct (eq_lit (pack_t pack) "res" && _); cbn.
  { destruct (pack_opt pack) as [opt|]; cbn;
      [|split; [apply session_kept_refl|constructor]].
    destruct (forEach_kept _ (store_res_kept pack) opt 0%nat s) as [Hk He].
    destruct (forEach_from 0 opt _ s) as [[s1 ev1] [e|[]]];
      cbn in *; subst; split; auto; repeat constructor. }
  split; [apply session_kept_refl|repeat constructor].
Qed.

Lemma reports_no_OnConnected (evs : list Event) :
  Forall is_report evs -> count_OnConnected evs = 0%nat.
Proof.
  induction 1 as [|e evs He _ IH]; [reflexivity|].
  destruct e; cbn in *; tauto.
Qed.

Lemma reports_no_Send (evs : list Event) request port address :
  Forall is_report evs -> ~ In (Send request port address) evs.
Proof.
  intros H Hin. rewrite Forall_forall in H.
  apply list_elem_of_In in Hin. exact (H _ Hin).
Qed.

Lemma incr_packetReceivedNo_kept s : session_kept s (incr_packetReceivedNo s).
Proof. unfold session_kept, device_kept; cbn. auto 10 using props_kept_refl. Qed.

(** [_sendRequest] writes [tag] and the send counter only and performs at
    most one send. *)
Lemma _sendRequest_kept (message : Request) (address : option string)
    (port : option Z) (s : Session) :
  let r := _sendRequest svc message address port s in
  session_kept s (state_of r) /\
  (events_of r = [] \/
   exists request port' address', events_of r = [Send request port' address']).
Proof.
  unfold _sendRequest. unfold_js.
  destruct port as [p|]; [|destruct (dev_port (device s)) as [p|]];
    (destruct (encryptionVersion s =? 1); cbn;
     [|destruct (encryptionVersion s =? 2); cbn]);
    (split; [unfold session_kept, device_kept; cbn;
             auto 10 using props_kept_refl|]);
    eauto 6.
Qed.

(** A [dev] reply re-registers the device. *)
Lemma react_dev (s : Session) (x : Stimulus) :
  is_dev_reply svc s x = true ->
  dev_bound (device (state_after svc cmd_codes s x)) = Some false /\
  dev_props (device (state_after svc cmd_codes s x)) = Some ∅ /\
  encryptionVersion (state_after svc cmd_codes s x) =
    (if (encryptionVersion s =? 1) && is_V2_dev_reply svc s x then 2
     else encryptionVersion s) /\
  count_OnConnected (events_after svc cmd_codes s x) = 0%nat.
Proof.
  unfold is_V2_dev_reply, is_dev_reply, inbound_with, state_after, events_after.
  destruct x as [|msg rinfo| |]; try discriminate. cbn [react].
  destruct (payload_of svc s msg) as [[message pack]|] eqn:Hp; [|discriminate].
  intros Ht. rewrite (handle_opened _ _ _ _ _ _ Hp).
  assert (pack_t pack = Some "dev") as Ht'.
  { destruct (pack_t pack) as [t|]; [|discriminate]. cbn in Ht.
    apply String.eqb_eq in Ht. congruence. }
  destruct (dispatch_dev svc (incr_packetReceivedNo s) message pack rinfo Ht')
    as (_ & Hv & Hd & request & Hev).
  rewrite Hd, Hv, Hev, Ht. cbn. repeat split.
Qed.

(** An honoured [bindok] confirms the binding and calls [onConnected]
    once. *)
Lemma react_bindok (s : Session) (x : Stimulus) :
  is_honoured_bindok svc s x = true ->
  is_dev_reply svc s x = false /\
  encryptionVersion (state_after svc cmd_codes s x) = encryptionVersion s /\
  (exists key, device (state_after svc cmd_codes s x) = confirmed key (device s)) /\
  count_OnConnected (events_after svc cmd_codes s x) = 1%nat.
Proof.
  unfold is_honoured_bindok, is_dev_reply, inbound_with, state_after, events_after.
  destruct x as [|msg rinfo| |]; try discriminate. cbn [react].
  destruct (payload_of svc s msg) as [[message pack]|] eqn:Hp; [|discriminate].
  intros H. apply andb_prop in H as [Ht Hid].
  rewrite (handle_opened _ _ _ _ _ _ Hp).
  assert (pack_t pack = Some "bindok") as Ht'.
  { destruct (pack_t pack) as [t|]; [|discriminate]. cbn in Ht.
    apply String.eqb_eq in Ht. congruence. }
  rewrite (dispatch_bindok svc (incr_packetReceivedNo s) message pack rinfo Ht' Hid).
  rewrite Ht'. cbn. repeat split. eauto.
Qed.

(** Any other reaction leaves the session as it is, values of [props]
    apart, and does not call [onConnected]. *)
Lemma react_kept (s : Session) (x : Stimulus) :
  is_dev_reply svc s x = false ->
  is_honoured_bindok svc s x = false ->
  session_kept s (state_after svc cmd_codes s x) /\
  count_OnConnected (events_after svc cmd_codes s x) = 0%nat.
Proof.
  unfold is_honoured_bindok, is_dev_reply, inbound_with, state_after, events_after.
  destruct x as [|msg rinfo| |commands values]; cbn [react].
  - intros _ _. unfold_js. cbn.
    split; [unfold session_kept, device_kept; cbn;
            auto 10 using props_kept_refl|reflexivity].
  - destruct (payload_of svc s msg) as [[message pack]|] eqn:Hp.
    + intros H1 H2. rewrite (handle_opened _ _ _ _ _ _ Hp).
      destruct (dispatch_kept (incr_packetReceivedNo s) message pack rinfo H1 H2)
        as [Hk Hc].
      split; [|apply reports_no_OnConnected; assumption].
      eapply session_kept_trans; [apply incr_packetReceivedNo_kept|exact Hk].
    + intros _ _. destruct (handle_failed svc s msg rinfo Hp) as [e ->]. cbn.
      split; [apply incr_packetReceivedNo_kept|reflexivity].
  - intros _ _. unfold _requestDeviceStatus, bind, gets. cbn.
    destruct (_sendRequest_kept (StatusMsg cmd_codes (dev_id (device s)))
                (dev_address (device s)) (dev_port (device s)) s)
      as (Hk & [Hev|(request & port' & address' & Hev)]);
      destruct (_sendRequest _ _ _ _ s) as [[s1 ev1] r]; cbn in *; subst;
      (split; [assumption|reflexivity]).
  - intros _ _. unfold _sendCommand.
    destruct (_sendRequest_kept (CmdMsg commands values) None None s)
      as (Hk & [Hev|(request & port' & address' & Hev)]);
      rewrite Hev; (split; [assumption|reflexivity]).
Qed.

End Reactions.

(** ** The handshake *)



(** ** Status payloads *)

Lemma write_pairs_from_notin (code : string) (values : list JsVal)
    (codes : list string) :
  code ∉ codes ->
  forall (k : nat) (ps : gmap string JsVal),
    write_pairs_from k codes values ps !! code = ps !! code.
Proof.
  induction codes as [|c rest IH]; intros Hnot k ps; cbn; [reflexivity|].
  apply not_elem_of_cons in Hnot as [Hne Hrest].
  rewrite IH by assumption. apply lookup_insert_ne. congruence.
Qed.

(** The last pair written for a code is the one that stays. *)
Lemma write_pairs_from_last (code : string) (values : list JsVal)
    (codes : list string) :
  forall (i k : nat) (ps : gmap string JsVal),
    codes !! i = Some code ->
    code ∉ drop (S i) codes ->
    write_pairs_from k codes values ps !! code = Some (index values (k + i)).
Proof.
  induction codes as [|c rest IH]; intros i k ps Hi Hlast; [discriminate|].
  destruct i as [|j]; cbn in *.
  - injection Hi as ->. rewrite drop_0 in Hlast.
    rewrite write_pairs_from_notin by assumption.
    rewrite lookup_insert_eq. f_equal. f_equal. lia.
  - rewrite (IH j (S k)) by assumption. f_equal. f_equal. lia.
Qed.

Lemma handle_carried (svc : EncryptionService) (s : Session) (msg : Buffer)
    (rinfo : RInfo) (message : Message) (pack : Pack) (codes : list string)
    (values : list JsVal) (ps : gmap string JsVal) :
  payload_of svc s msg = Some (message, pack) ->
  carries pack codes values ->
  dev_bound (device s) = Some true ->
  dev_props (device s) = Some ps ->
  "__proto__" ∉ codes ->
  let d' := with_props (write_pairs codes values ps) (device s) in
  _handleResponse svc msg rinfo s =
    (set_device d' (incr_packetReceivedNo s), [callback_of pack d'], inr tt).
Proof.
  intros Hp [(Ht & Hc & Hv)|(Ht & Hc & Hv)] Hb Hps Hnot;
    rewrite (handle_opened svc s msg rinfo message pack Hp).
  - rewrite (dispatch_dat svc (incr_packetReceivedNo s) message pack rinfo
               codes values ps Ht Hc Hv Hb Hps Hnot).
    unfold callback_of. rewrite Ht. reflexivity.
  - rewrite (dispatch_res svc (incr_packetReceivedNo s) message pack rinfo
               codes values ps Ht Hc Hv Hb Hps Hnot).
    unfold callback_of. rewrite Ht. reflexivity.
Qed.

(** An unbound session reads no list of a status payload. *)
Lemma handle_status_unbound (svc : EncryptionService) (s : Session) (msg : Buffer)
    (rinfo : RInfo) (message : Message) (pack : Pack) :
  payload_of svc s msg = Some (message, pack) ->
  is_status pack ->
  dev_bound (device s) <> Some true ->
  _handleResponse svc msg rinfo s =
    (incr_packetReceivedNo s, [ConsoleLog (LogUnknown (pack_t pack))], inr tt).
Proof.
  intros Hp Hc Hb. rewrite (handle_opened svc s msg rinfo message pack Hp).
  apply dispatch_unknown.
  - destruct Hc as [->| ->]; reflexivity.
  - destruct Hc as [->| ->]; reflexivity.
  - cbn. rewrite bool_decide_eq_false_2 by assumption. apply andb_false_r.
Qed.

(** C2. A [dat] or [res] payload changes [props] exactly when [bound] is
    true. Unbound, the device is left as it is and no callback runs,
    whatever lists the payload has. Bound, the pairs of the two lists are
    written by position and the callback of the payload runs once with the
    updated device; of two payloads handled one after the other, the second
    decides the value of each of its codes and leaves the other codes as
    the first left them. The codes are keys of the object: none of them is
    [__proto__], which names the inherited setter. *)
Theorem status_written_iff_bound (svc : EncryptionService) (s : Session)
    (msg1 msg2 : Buffer) (rinfo1 rinfo2 : RInfo) (message1 message2 : Message)
    (pack1 pack2 : Pack) :
  payload_of svc s msg1 = Some (message1, pack1) ->
  is_status pack1 ->
  let r1 := _handleResponse svc msg1 rinfo1 s in
  payload_of svc (state_of r1) msg2 = Some (message2, pack2) ->
  is_status pack2 ->
  let r2 := _handleResponse svc msg2 rinfo2 (state_of r1) in
  (dev_bound (device s) <> Some true ->
     device (state_of r1) = device s /\
     events_of r1 = [ConsoleLog (LogUnknown (pack_t pack1))] /\
     device (state_of r2) = device s /\
     events_of r2 = [ConsoleLog (LogUnknown (pack_t pack2))]) /\
  (dev_bound (device s) = Some true ->
   forall (ps : gmap string JsVal) (codes1 codes2 : list string)
          (values1 values2 : list JsVal),
     dev_props (device s) = Some ps ->
     carries pack1 codes1 values1 ->
     carries pack2 codes2 values2 ->
     "__proto__" ∉ codes1 ->
     "__proto__" ∉ codes2 ->
     let ps1 := write_pairs codes1 values1 ps in
     let ps2 := write_pairs codes2 values2 ps1 in
     device (state_of r1) = with_props ps1 (device s) /\
     events_of r1 = [callback_of pack1 (device (state_of r1))] /\
     device (state_of r2) = with_props ps2 (device s) /\
     events_of r2 = [callback_of pack2 (device (state_of r2))] /\
     (forall i code,
        codes1 !! i = Some code -> code ∉ drop (S i) codes1 ->
        ps1 !! code = Some (index values1 i)) /\
     (forall i code,
        codes2 !! i = Some code -> code ∉ drop (S i) codes2 ->
        ps2 !! code = Some (index values2 i)) /\
     (forall code, code ∉ codes2 -> ps2 !! code = ps1 !! code)).
Proof.
  intros Hp1 Hc1 r1 Hp2 Hc2 r2. split.
  - intros Hb. subst r2. subst r1. revert Hp2.
    rewrite (handle_status_unbound svc s msg1 rinfo1 _ _ Hp1 Hc1 Hb).
    cbn. intros Hp2.
    rewrite (handle_status_unbound svc _ msg2 rinfo2 _ _ Hp2 Hc2 Hb).
    cbn. auto.
  - intros Hb ps codes1 codes2 values1 values2 Hps Hl1 Hl2 Hn1 Hn2 ps1 ps2.
    subst r2. subst r1. revert Hp2.
    rewrite (handle_carried svc s msg1 rinfo1 _ _ _ _ ps Hp1 Hl1 Hb Hps Hn1).
    cbn. intros Hp2.
    rewrite (handle_carried svc _ msg2 rinfo2 _ _ _ _ ps1 Hp2 Hl2 Hb eq_refl Hn2).
    cbn. repeat split.
    + intros i code Hi Hlast. apply (write_pairs_from_last _ _ _ i 0%nat); assumption.
    + intros i code Hi Hlast. apply (write_pairs_from_last _ _ _ i 0%nat); assumption.
    + intros code Hnot. apply write_pairs_from_notin. assumption.
Qed.

Lemma not_proto_in (codes : list string) :
  forallb (fun c => negb (String.eqb c "__proto__")) codes = true ->
  "__proto__" ∉ codes.
Proof.
  induction codes as [|c rest IH]; cbn; intros H.
  - apply not_elem_of_nil.
  - apply andb_prop in H as [Hc Hrest]. apply not_elem_of_cons.
    split; [|auto]. apply negb_true_iff, String.eqb_neq in Hc. congruence.
Qed.

(** Two [dat] payloads on a bound session: [{Pow: 1, SetTem: 24}], then
    [{SetTem: 26, Pow: 0}]. The second one's values stay. *)
Lemma status_written_iff_bound_witness :
  dev_bound (device Demo.bound_session) = Some true /\
  let r1 := _handleResponse Demo.service (Demo.wire 0 "dat-1") Demo.from
              Demo.bound_session in
  let r2 := _handleResponse Demo.service (Demo.wire 0 "dat-2") Demo.from
              (state_of r1) in
  dev_props (device (state_of r2)) =
    Some (write_pairs ["SetTem"; "Pow"] [JNum 26; JNum 0]
            (write_pairs ["Pow"; "SetTem"] [JNum 1; JNum 24] ∅)) /\
  write_pairs ["SetTem"; "Pow"] [JNum 26; JNum 0]
    (write_pairs ["Pow"; "SetTem"] [JNum 1; JNum 24] ∅) !! "Pow"
  = Some (JNum 0).
Proof.
  split; [reflexivity|].
  pose proof (status_written_iff_bound Demo.service Demo.bound_session
    (Demo.wire 0 "dat-1") (Demo.wire 0 "dat-2") Demo.from Demo.from _ _
    (Demo.dat ["Pow"; "SetTem"] [JNum 1; JNum 24])
    (Demo.dat ["SetTem"; "Pow"] [JNum 26; JNum 0])
    eq_refl (or_introl eq_refl) eq_refl (or_introl eq_refl)) as [_ H].
  destruct (H eq_refl ∅ ["Pow"; "SetTem"] ["SetTem"; "Pow"]
              [JNum 1; JNum 24] [JNum 26; JNum 0] eq_refl
              (or_introl (conj eq_refl (conj eq_refl eq_refl)))
              (or_introl (conj eq_refl (conj eq_refl eq_refl)))
              (not_proto_in ["Pow"; "SetTem"] eq_refl)
              (not_proto_in ["SetTem"; "Pow"] eq_refl))
    as (_ & _ & H2 & _ & _ & Hlast & _).
  cbv zeta. split.
  - rewrite H2. reflexivity.
  - apply (Hlast 1%nat "Pow"); [reflexivity|]. cbn. apply not_elem_of_nil.
Defined.

(** ** Runs *)

Section Runs.

Variable svc : EncryptionService.
Variable cmd_codes : list string.

Local Abbreviation final := (final svc cmd_codes).
Local Abbreviation trace := (trace svc cmd_codes).
Local Abbreviation state_after := (state_after svc cmd_codes).
Local Abbreviation events_after := (events_after svc cmd_codes).

Lemma final_cons s x xs : final s (x :: xs) = final (state_after s x) xs.
Proof. reflexivity. Qed.

Lemma trace_cons s x xs :
  trace s (x :: xs) = events_after s x ++ trace (state_after s x) xs.
Proof. reflexivity. Qed.

Lemma final_app xs : forall s ys, final s (xs ++ ys) = final (final s xs) ys.
Proof.
  induction xs as [|x xs IH]; intros s ys; [reflexivity|].
  rewrite <- app_comm_cons, !final_cons. apply IH.
Qed.

Lemma count_OnConnected_app evs1 evs2 :
  count_OnConnected (evs1 ++ evs2) =
    (count_OnConnected evs1 + count_OnConnected evs2)%nat.
Proof.
  induction evs1 as [|e evs1 IH]; [reflexivity|].
  destruct e; cbn; rewrite IH; reflexivity.
Qed.

(** Only a [dev] reply writes the device id. *)
Lemma dev_id_kept s x :
  is_dev_reply svc s x = false ->
  dev_id (device (state_after s x)) = dev_id (device s).
Proof.
  intros Hdev. destruct (is_honoured_bindok svc s x) eqn:Hb.
  - destruct (react_bindok svc cmd_codes s x Hb) as (_ & _ & [key ->] & _).
    reflexivity.
  - destruct (react_kept svc cmd_codes s x Hdev Hb) as [(_ & Hid & _) _].
    exact Hid.
Qed.

Lemma dev_free_dev_id xs :
  forall s, dev_free svc cmd_codes s xs = true ->
    dev_id (device (final s xs)) = dev_id (device s).
Proof.
  induction xs as [|x xs IH]; intros s Hfree; [reflexivity|].
  cbn in Hfree. apply andb_prop in Hfree as [Hx Hrest].
  apply negb_true_iff in Hx.
  rewrite final_cons, (IH _ Hrest). apply dev_id_kept. exact Hx.
Qed.

End Runs.

(** C3. A [bindok] payload is honoured only when the device id is set. With
    no id set the device, the version and the tag stay as they are and the
    payload is logged as unknown. With the id set the key of the payload is
    stored, [bound] becomes true, the status request is put on a 3000 ms
    interval timer and [onConnected] is called. A session has its id set
    only after a [dev] reply. *)
Theorem bindok_needs_device_id (svc : EncryptionService) (cmd_codes : list string)
    (s : Session) (msg : Buffer) (rinfo : RInfo) (message : Message) (pack : Pack) :
  payload_of svc s msg = Some (message, pack) ->
  pack_t pack = Some "bindok" ->
  let r := _handleResponse svc msg rinfo s in
  (truthy (dev_id (device s)) = false ->
     device (state_of r) = device s /\
     encryptionVersion (state_of r) = encryptionVersion s /\
     tag (state_of r) = tag s /\
     events_of r = [ConsoleLog (LogUnknown (Some "bindok"))]) /\
  (truthy (dev_id (device s)) = true ->
     dev_key (device (state_of r)) = pack_key pack /\
     dev_bound (device (state_of r)) = Some true /\
     events_of r =
       [ConsoleLog (LogBound (dev_id (device s)));
        SetInterval RequestDeviceStatus 3000;
        OnConnected (device (state_of r))]) /\
  (forall xs,
     s = final svc cmd_codes new_Device xs ->
     truthy (dev_id (device s)) = true ->
     dev_free svc cmd_codes new_Device xs = false).
Proof.
  intros Hp Ht r. subst r.
  rewrite (handle_opened svc s msg rinfo message pack Hp).
  split; [|split].
  - intros Hid. rewrite dispatch_unknown; cbn.
    + rewrite Ht. auto.
    + rewrite Ht. reflexivity.
    + rewrite Hid. apply andb_false_r.
    + rewrite Ht. reflexivity.
  - intros Hid.
    rewrite (dispatch_bindok svc (incr_packetReceivedNo s) message pack rinfo Ht Hid).
    cbn. auto.
  - intros xs -> Hid. destruct (dev_free _ _ _ xs) eqn:Hfree; [|reflexivity].
    rewrite (dev_free_dev_id svc cmd_codes xs new_Device Hfree) in Hid.
    discriminate.
Qed.

(** A [bindok] that arrives before any [dev] reply changes nothing; the
    same datagram after a [dev] reply binds the device with key [K1]. *)
Lemma bindok_needs_device_id_witness :
  device (state_of (_handleResponse Demo.service (Demo.wire 1 "bindok-1")
                      Demo.from new_Device)) = device new_Device /\
  let s := final Demo.service Demo.catalog new_Device [Demo.handshake "dev-v1"] in
  let r := _handleResponse Demo.service (Demo.wire 1 "bindok-1") Demo.from s in
  dev_key (device (state_of r)) = Some "K1" /\
  dev_bound (device (state_of r)) = Some true.
Proof.
  split.
  - pose proof (bindok_needs_device_id Demo.service Demo.catalog new_Device
      (Demo.wire 1 "bindok-1") Demo.from _ (Demo.bindok "K1")
      eq_refl eq_refl) as (H & _ & _).
    destruct (H eq_refl) as (Hd & _). exact Hd.
  - pose proof (bindok_needs_device_id Demo.service Demo.catalog
      (final Demo.service Demo.catalog new_Device [Demo.handshake "dev-v1"])
      (Demo.wire 1 "bindok-1") Demo.from _ (Demo.bindok "K1")
      eq_refl eq_refl) as (_ & H & _).
    destruct (H eq_refl) as (Hk & Hb & _). split; [exact Hk|exact Hb].
Defined.

(** ** The connected-callback *)

Section Connected.

Variable svc : EncryptionService.
Variable cmd_codes : list string.

(** One reaction calls [onConnected] once when it handles an honoured
    [bindok], and not at all otherwise. *)
Lemma count_OnConnected_step (s : Session) (x : Stimulus) :
  count_OnConnected (events_after svc cmd_codes s x) =
    if is_honoured_bindok svc s x then 1%nat else 0%nat.
Proof.
  destruct (is_honoured_bindok svc s x) eqn:Hb.
  - apply (react_bindok svc cmd_codes s x Hb).
  - destruct (is_dev_reply svc s x) eqn:Hd.
    + apply (react_dev svc cmd_codes s x Hd).
    + apply (react_kept svc cmd_codes s x Hd Hb).
Qed.

End Connected.

(** C4, as the code has it. [onConnected] is called once for every [bindok]
    payload handled while the device id is set, and at no other time: over a
    run the number of calls is the number of such payloads. Nothing stops a
    second call. *)
Theorem onConnected_once_per_honoured_bindok (svc : EncryptionService)
    (cmd_codes : list string) (xs : list Stimulus) (s : Session) :
  count_OnConnected (trace svc cmd_codes s xs) =
    honoured_bindoks svc cmd_codes s xs.
Proof.
  revert s. induction xs as [|x xs IH]; intros s; [reflexivity|].
  rewrite trace_cons, count_OnConnected_app, count_OnConnected_step, IH.
  reflexivity.
Qed.

(** C4 fails as stated: a handshake followed by a second [bindok] calls
    [onConnected] twice in one session. *)
Lemma onConnected_called_twice :
  let xs := [Demo.handshake "dev-v1"; Demo.handshake "bindok-1";
             Demo.handshake "bindok-2"] in
  dev_bound (device (final Demo.service Demo.catalog new_Device xs)) = Some true /\
  count_OnConnected (trace Demo.service Demo.catalog new_Device xs) = 2%nat /\
  count_OnConnected (trace Demo.service Demo.catalog new_Device xs) <> 1%nat.
Proof.
  cbv zeta. split; [reflexivity|]. split; [reflexivity|].
  vm_compute. discriminate.
Qed.

(** ** What stays once bound *)

Section Kept.

Variable svc : EncryptionService.
Variable cmd_codes : list string.

Lemma bound_and_props_kept_step (s : Session) (x : Stimulus) :
  is_dev_reply svc s x = false ->
  bound_and_props_kept s (state_after svc cmd_codes s x).
Proof.
  intros Hd. unfold bound_and_props_kept.
  destruct (is_honoured_bindok svc s x) eqn:Hb.
  - destruct (react_bindok svc cmd_codes s x Hb) as (_ & _ & [key ->] & _).
    split; [reflexivity|apply props_kept_refl].
  - destruct (react_kept svc cmd_codes s x Hd Hb)
      as [(_ & _ & _ & _ & _ & Hbound & _ & Hprops) _].
    split; [congruence|exact Hprops].
Qed.

Lemma bound_and_props_kept_run (xs : list Stimulus) :
  forall s, dev_free svc cmd_codes s xs = true ->
    bound_and_props_kept s (final svc cmd_codes s xs).
Proof.
  induction xs as [|x xs IH]; intros s Hfree.
  - split; [auto|apply props_kept_refl].
  - cbn in Hfree. apply andb_prop in Hfree as [Hx Hrest].
    apply negb_true_iff in Hx. rewrite final_cons.
    destruct (bound_and_props_kept_step s x Hx) as [Hb1 Hp1].
    destruct (IH _ Hrest) as [Hb2 Hp2].
    split; [auto|eauto using props_kept_trans].
Qed.

End Kept.

(** C5, as the code has it. Over a run with no [dev] reply in it, [bound]
    stays true once it is true and no entry of [props] is removed. A [dev]
    reply goes through [_setDevice], which sets [bound] to false and [props]
    to the empty object. *)
Theorem bound_and_props_kept_until_dev (svc : EncryptionService)
    (cmd_codes : list string) (s : Session) (xs : list Stimulus) (x : Stimulus) :
  dev_free svc cmd_codes s xs = true ->
  let s' := final svc cmd_codes s xs in
  (dev_bound (device s) = Some true -> dev_bound (device s') = Some true) /\
  props_kept (dev_props (device s)) (dev_props (device s')) /\
  (is_dev_reply svc s' x = true ->
     dev_bound (device (state_after svc cmd_codes s' x)) = Some false /\
     dev_props (device (state_after svc cmd_codes s' x)) = Some ∅).
Proof.
  intros Hfree s'.
  destruct (bound_and_props_kept_run svc cmd_codes xs s Hfree) as [Hb Hp].
  split; [exact Hb|]. split; [exact Hp|].
  intros Hd. destruct (react_dev svc cmd_codes s' x Hd) as (H1 & H2 & _).
  split; assumption.
Qed.

(** On a bound session, a status report, a poll and a command keep [bound]
    true. *)
Lemma bound_and_props_kept_until_dev_witness :
  dev_bound (device Demo.bound_session) = Some true /\
  dev_bound (device (final Demo.service Demo.catalog Demo.bound_session
                       [Demo.report "dat-1"; Tick; Command ["Pow"] [JNum 0]]))
  = Some true.
Proof.
  split; [reflexivity|].
  pose proof (bound_and_props_kept_until_dev Demo.service Demo.catalog
    Demo.bound_session [Demo.report "dat-1"; Tick; Command ["Pow"] [JNum 0]]
    Listening eq_refl) as H.
  cbv zeta in H. destruct H as (H & _). exact (H eq_refl).
Defined.

(** C5 fails as stated: a [dev] reply on a bound session with a known
    [Pow] makes [bound] false again and empties [props]. *)
Lemma dev_reply_resets_bound_and_props :
  let s := final Demo.service Demo.catalog Demo.bound_session
             [Demo.report "dat-1"] in
  let s' := state_after Demo.service Demo.catalog s (Demo.handshake "dev-v1") in
  dev_bound (device s) = Some true /\
  (exists ps, dev_props (device s) = Some ps /\ ps !! "Pow" = Some (JNum 1)) /\
  dev_bound (device s') = Some false /\
  dev_props (device s') = Some ∅.
Proof.
  cbv zeta. split; [reflexivity|]. split.
  - eexists. split; [reflexivity|]. vm_compute. reflexivity.
  - split; reflexivity.
Qed.

(** ** The encryption version *)

Section Version.

Variable svc : EncryptionService.
Variable cmd_codes : list string.

(** One reaction keeps the version, or moves it from 1 to 2 while handling
    a [dev] reply whose version string starts with "V2.". *)
Lemma version_step (s : Session) (x : Stimulus) :
  encryptionVersion (state_after svc cmd_codes s x) = encryptionVersion s \/
  (encryptionVersion s = 1 /\
   encryptionVersion (state_after svc cmd_codes s x) = 2 /\
   is_V2_dev_reply svc s x = true).
Proof.
  destruct (is_dev_reply svc s x) eqn:Hd.
  - destruct (react_dev svc cmd_codes s x Hd) as (_ & _ & Hv & _).
    rewrite Hv. destruct (encryptionVersion s =? 1) eqn:E; cbn; [|auto].
    destruct (is_V2_dev_reply svc s x); [|auto].
    right. repeat split. lia.
  - left. destruct (is_honoured_bindok svc s x) eqn:Hb.
    + apply (react_bindok svc cmd_codes s x Hb).
    + apply (react_kept svc cmd_codes s x Hd Hb).
Qed.

Lemma version_1_or_2 (xs : list Stimulus) :
  forall s, encryptionVersion s = 1 \/ encryptionVersion s = 2 ->
    encryptionVersion (final svc cmd_codes s xs) = 1 \/
    encryptionVersion (final svc cmd_codes s xs) = 2.
Proof.
  induction xs as [|x xs IH]; intros s Hs; [exact Hs|].
  rewrite final_cons. apply IH.
  destruct (version_step s x) as [->|(_ & -> & _)]; auto.
Qed.

Lemma version_2_stays (xs : list Stimulus) :
  forall s, encryptionVersion s = 2 ->
    encryptionVersion (final svc cmd_codes s xs) = 2.
Proof.
  induction xs as [|x xs IH]; intros s Hs; [exact Hs|].
  rewrite final_cons. apply IH.
  destruct (version_step s x) as [->|(H1 & _)]; [exact Hs|congruence].
Qed.

End Version.

(** C6, as the code has it. The version starts at 1 and is 1 or 2 ever
    after. A reaction changes it only from 1 to 2 and only while handling a
    [dev] reply whose version string starts with "V2.", whichever [dev]
    reply of the session that is; once 2 it stays 2, so it changes at most
    once. *)
Theorem version_changes_once_on_a_dev_reply (svc : EncryptionService)
    (cmd_codes : list string) (xs ys : list Stimulus) (x : Stimulus) :
  let s := final svc cmd_codes new_Device xs in
  let s' := state_after svc cmd_codes s x in
  encryptionVersion new_Device = 1 /\
  (encryptionVersion s = 1 \/ encryptionVersion s = 2) /\
  (encryptionVersion s' = encryptionVersion s \/
   (encryptionVersion s = 1 /\ encryptionVersion s' = 2 /\
    is_V2_dev_reply svc s x = true)) /\
  (encryptionVersion s = 2 ->
   encryptionVersion (final svc cmd_codes s ys) = 2).
Proof.
  cbv zeta. split; [reflexivity|]. split; [|split].
  - apply version_1_or_2. left. reflexivity.
  - apply version_step.
  - apply version_2_stays.
Qed.

(** A session that moved to version 2 on its first [dev] reply is still on
    version 2 after binding and a status report. *)
Lemma version_changes_once_on_a_dev_reply_witness :
  encryptionVersion
    (final Demo.service Demo.catalog new_Device
       ([Demo.handshake "dev-v2"]
        ++ [Demo.handshake "bindok-1"; Demo.report "dat-1"])) = 2.
Proof.
  rewrite final_app.
  pose proof (version_changes_once_on_a_dev_reply Demo.service Demo.catalog
    [Demo.handshake "dev-v2"]
    [Demo.handshake "bindok-1"; Demo.report "dat-1"] Listening) as H.
  cbv zeta in H. destruct H as (_ & _ & _ & H). exact (H eq_refl).
Defined.

(** C6 fails as stated: the first [dev] reply carries no version string and
    leaves the version at 1; a second [dev] reply announcing "V2.0.0" then
    moves the session to version 2. *)
Lemma version_changes_on_second_dev_reply :
  let s1 := state_after Demo.service Demo.catalog new_Device
              (Demo.handshake "dev-v1") in
  let s2 := state_after Demo.service Demo.catalog s1
              (Demo.handshake "dev-v2") in
  is_dev_reply Demo.service new_Device (Demo.handshake "dev-v1") = true /\
  encryptionVersion s1 = 1 /\
  is_dev_reply Demo.service s1 (Demo.handshake "dev-v2") = true /\
  encryptionVersion s2 = 2.
Proof.
  cbv zeta. repeat split.
Qed.

(** ** Outbound envelopes *)

Section Envelopes.

Variable svc : EncryptionService.
Variable cmd_codes : list string.

(** The code tests [this.tag === ''] to leave the [tag] key out. *)
Hypothesis tag_not_empty : returns_a_tag svc.

Lemma request_literal_untagged (tcid : option string) (i : Z)
    (pk : option string) :
  env_tag (request_literal "" tcid i pk) = None.
Proof. reflexivity. Qed.

Lemma request_literal_tagged (message : Request) (key tcid : option string)
    (i : Z) (pk : option string) :
  env_tag (request_literal (enc_tag (encrypt_v2 svc message key)) tcid i pk)
    = Some (enc_tag (encrypt_v2 svc message key)) /\
  env_pack (request_literal (enc_tag (encrypt_v2 svc message key)) tcid i pk)
    = pk.
Proof.
  unfold request_literal.
  destruct (String.eqb_spec (enc_tag (encrypt_v2 svc message key)) "") as [E|_].
  - destruct (tag_not_empty _ _ E).
  - split; reflexivity.
Qed.

Lemma _sendBindRequest_sealed (device_arg : Device) (s : Session) (p : Z) :
  dev_port device_arg = Some p ->
  encryptionVersion s = 1 \/ encryptionVersion s = 2 ->
  let r := _sendBindRequest svc device_arg s in
  encryptionVersion (state_of r) = encryptionVersion s /\
  device (state_of r) = device s /\
  exists request,
    events_of r = [Send request (dev_port device_arg) (dev_address device_arg)] /\
    sealed_by svc (encryptionVersion s) (BindMsg (dev_id (device s))) None request.
Proof.
  intros Hp [Hv|Hv]; unfold _sendBindRequest; unfold_js; rewrite Hv, Hp; cbn;
    rewrite ?Hv.
  - repeat split. eexists. split; [reflexivity|]. left. auto.
  - repeat split. eexists. split; [reflexivity|]. right.
    split; [reflexivity|]. apply request_literal_tagged.
Qed.

Lemma _sendRequest_sealed (message : Request) (address : option string)
    (port : option Z) (s : Session) :
  encryptionVersion s = 1 \/ encryptionVersion s = 2 ->
  let r := _sendRequest svc message address port s in
  encryptionVersion (state_of r) = encryptionVersion s /\
  forall request port' address',
    In (Send request port' address') (events_of r) ->
    sealed_by svc (encryptionVersion s) message (dev_key (device s)) request.
Proof.
  intros Hv. unfold _sendRequest. unfold_js.
  destruct (match port with Some p => Some p | None => dev_port (device s) end)
    as [p|];
    destruct Hv as [Hv|Hv]; rewrite Hv; cbn; rewrite ?Hv;
    (split; [reflexivity|]); intros request port' address' Hin;
    try (destruct Hin as [Hin|[]]; injection Hin as <- _ _);
    try (destruct Hin).
  - left. auto.
  - right. split; [reflexivity|]. apply request_literal_tagged.
Qed.

Lemma dispatch_dev_sealed (s : Session) (message : Message) (pack : Pack)
    (rinfo : RInfo) :
  pack_t pack = Some "dev" ->
  encryptionVersion s = 1 \/ encryptionVersion s = 2 ->
  let r := dispatch svc message pack rinfo s in
  exists line request port address,
    events_of r = [ConsoleLog line; Send request port address] /\
    sealed_by svc (encryptionVersion (state_of r))
      (BindMsg (dev_id (device (state_of r)))) None request.
Proof.
  intros Ht Hv. unfold dispatch.
  unfold bind, gets, modify, emit, _setDevice. rewrite Ht. cbn.
  assert (encryptionVersion (set_encryptionVersion 2 s) = 1 \/
          encryptionVersion (set_encryptionVersion 2 s) = 2) as Hv2
    by (right; reflexivity).
  destruct ((encryptionVersion s =? 1) && ver_is_V2 (pack_ver pack)); cbn;
    match goal with
    | |- context [_sendBindRequest svc ?d ?s1] =>
        destruct (_sendBindRequest_sealed d s1 (rinfo_port rinfo) eq_refl
                    ltac:(assumption))
          as (Hv' & Hd' & request & Hev & Hsealed);
        destruct (_sendBindRequest svc d s1) as [[s2 ev2] r2]
    end;
    cbn in *; subst ev2; rewrite Hv', Hd'; cbn; eauto 6.
Qed.

(** Every envelope sent during a reaction is sealed with the operation of
    the version the session has by the end of that reaction. *)
Lemma react_sealed (s : Session) (x : Stimulus) request port address :
  encryptionVersion s = 1 \/ encryptionVersion s = 2 ->
  In (Send request port address) (events_after svc cmd_codes s x) ->
  exists message key,
    sealed_by svc (encryptionVersion (state_after svc cmd_codes s x))
      message key request.
Proof.
  intros Hv. unfold events_after, state_after.
  destruct x as [|msg rinfo| |commands values]; cbn [react].
  - unfold_js. cbn. intros [H|[H|[]]]; discriminate.
  - destruct (payload_of svc s msg) as [[message pack]|] eqn:Hp.
    2:{ destruct (handle_failed svc s msg rinfo Hp) as [e ->]. intros []. }
    rewrite (handle_opened svc s msg rinfo message pack Hp).
    destruct (eq_lit (pack_t pack) "dev") eqn:Hdev.
    + assert (pack_t pack = Some "dev") as Ht.
      { destruct (pack_t pack) as [t|]; [|discriminate]. cbn in Hdev.
        apply String.eqb_eq in Hdev. congruence. }
      destruct (dispatch_dev_sealed (incr_packetReceivedNo s) message pack rinfo Ht Hv)
        as (line & request' & port' & address' & Hev & Hsealed).
      rewrite Hev. intros [H|[H|[]]]; [discriminate|].
      injection H as <- _ _. eauto.
    + destruct (eq_lit (pack_t pack) "bindok" && truthy (dev_id (device s))) eqn:Hb.
      * apply andb_prop in Hb as [Ht Hid].
        assert (pack_t pack = Some "bindok") as Ht'.
        { destruct (pack_t pack) as [t|]; [|discriminate]. cbn in Ht.
          apply String.eqb_eq in Ht. congruence. }
        rewrite (dispatch_bindok svc (incr_packetReceivedNo s) message pack rinfo Ht' Hid).
        cbn. intros [H|[H|[H|[]]]]; discriminate.
      * destruct (dispatch_kept svc (incr_packetReceivedNo s) message pack rinfo Hdev Hb)
          as [_ Hq].
        intros Hin. destruct (reports_no_Send _ _ _ _ Hq Hin).
  - unfold _requestDeviceStatus, bind, gets. cbn.
    destruct (_sendRequest_sealed (StatusMsg cmd_codes (dev_id (device s)))
                (dev_address (device s)) (dev_port (device s)) s Hv)
      as (Hv' & Hall).
    destruct (_sendRequest _ _ _ _ s) as [[s1 ev1] r]. cbn in *.
    intros Hin. rewrite Hv'. eauto.
  - unfold _sendCommand.
    destruct (_sendRequest_sealed (CmdMsg commands values) None None s Hv)
      as (Hv' & Hall).
    intros Hin. rewrite Hv'. eauto.
Qed.

End Envelopes.

(** C7. With an [encrypt_v2] that returns a tag, every envelope
    the session sends, bind request or steady-state request, has a [tag]
    key exactly when the negotiated version is 2, and the tag is then the
    one [encrypt_v2] returned with the ciphertext; under version 1 the
    envelope has no [tag] key. *)
Theorem tag_present_iff_version_2 (svc : EncryptionService)
    (cmd_codes : list string) (xs : list Stimulus) (x : Stimulus)
    (request : Envelope) (port : option Z) (address : option string) :
  returns_a_tag svc ->
  let s := final svc cmd_codes new_Device xs in
  let s' := state_after svc cmd_codes s x in
  In (Send request port address) (events_after svc cmd_codes s x) ->
  (is_Some (env_tag request) <-> encryptionVersion s' = 2) /\
  (encryptionVersion s' = 1 -> env_tag request = None) /\
  exists message key, sealed_by svc (encryptionVersion s') message key request.
Proof.
  intros Htag s s' Hin.
  assert (encryptionVersion s = 1 \/ encryptionVersion s = 2) as Hv.
  { apply version_1_or_2. left. reflexivity. }
  destruct (react_sealed svc cmd_codes Htag s x request port address Hv Hin)
    as (message & key & Hsealed).
  fold s' in Hsealed. split; [|split].
  - destruct Hsealed as [(H1 & H2 & _)|(H1 & H2 & _)]; rewrite H1, H2; split.
    + intros [? ?]. discriminate.
    + discriminate.
    + reflexivity.
    + eauto.
  - destruct Hsealed as [(H1 & H2 & _)|(H1 & H2 & _)];
      rewrite H1, H2; [reflexivity|discriminate].
  - eauto.
Qed.

(** A poll of a session that negotiated version 2 carries the tag. *)
Lemma tag_present_iff_version_2_witness :
  let s := final Demo.service Demo.catalog new_Device
             [Demo.handshake "dev-v2"; Demo.handshake "bindok-1"] in
  In (Send Demo.v2_poll (Some 7000) (Some "10.0.0.5"))
     (events_after Demo.service Demo.catalog s Tick) /\
  (is_Some (env_tag Demo.v2_poll) <->
   encryptionVersion (state_after Demo.service Demo.catalog s Tick) = 2).
Proof.
  cbv zeta. split; [left; reflexivity|].
  apply (tag_present_iff_version_2 Demo.service Demo.catalog
    [Demo.handshake "dev-v2"; Demo.handshake "bindok-1"] Tick
    Demo.v2_poll (Some 7000) (Some "10.0.0.5")).
  - intros m k. cbn. discriminate.
  - left. reflexivity.
Defined.

(** ** Datagrams that do not open *)

(** A command does not read the receive counter. *)
Lemma _sendCommand_after_receive (svc : EncryptionService)
    (commands : list string) (values : list JsVal) (s : Session) :
  outcome_of (_sendCommand svc commands values (incr_packetReceivedNo s)) =
    outcome_of (_sendCommand svc commands values s) /\
  events_of (_sendCommand svc commands values (incr_packetReceivedNo s)) =
    events_of (_sendCommand svc commands values s).
Proof.
  unfold _sendCommand, _sendRequest. unfold_js. cbn.
  destruct (dev_port (device s));
    (destruct (encryptionVersion s =? 1); cbn;
     [|destruct (encryptionVersion s =? 2); cbn]);
    split; reflexivity.
Qed.

(** C8, as the code has it. When the outer JSON does not parse or the
    decrypt operation fails, the handler has counted the datagram and done
    nothing else: the device, the version, the tag and the send counter are
    as before and nothing is logged. The handler does not return: the
    exception leaves [_handleResponse], which has no handler for it,
    towards the socket's event dispatch. The command API is not on that
    path: a command issued afterwards returns or throws, and sends, as it
    would have without the datagram. *)
Theorem failed_datagram_throws_unlogged (svc : EncryptionService) (s : Session)
    (msg : Buffer) (rinfo : RInfo) :
  JSON_parse msg = None \/
  (exists message,
     JSON_parse msg = Some message /\
     ((encryptionVersion s = 1 /\
       decrypt svc message (decrypt_key message (device s)) = None) \/
      (encryptionVersion s = 2 /\
       decrypt_v2 svc message (decrypt_key message (device s)) = None))) ->
  let r := _handleResponse svc msg rinfo s in
  device (state_of r) = device s /\
  encryptionVersion (state_of r) = encryptionVersion s /\
  tag (state_of r) = tag s /\
  packetReceivedNo (state_of r) = packetReceivedNo s + 1 /\
  packetSentNo (state_of r) = packetSentNo s /\
  events_of r = [] /\
  (exists e, outcome_of r = inl e) /\
  (forall commands values,
     outcome_of (_sendCommand svc commands values (state_of r)) =
       outcome_of (_sendCommand svc commands values s) /\
     events_of (_sendCommand svc commands values (state_of r)) =
       events_of (_sendCommand svc commands values s)).
Proof.
  intros H r.
  assert (payload_of svc s msg = None) as Hp.
  { unfold payload_of.
    destruct H as [->|(message & -> & [[Hv Hd]|[Hv Hd]])];
      [reflexivity| |]; rewrite Hv; cbn; rewrite Hd; reflexivity. }
  destruct (handle_failed svc s msg rinfo Hp) as [e He].
  subst r. rewrite He. cbn [state_of events_of outcome_of fst snd].
  repeat (split; [reflexivity|]). split; [eauto|].
  intros commands values. apply _sendCommand_after_receive.
Qed.

Lemma failed_datagram_throws_unlogged_witness :
  let r := _handleResponse Demo.service NotJson Demo.from Demo.bound_session in
  device (state_of r) = device Demo.bound_session /\ events_of r = [].
Proof.
  pose proof (failed_datagram_throws_unlogged Demo.service Demo.bound_session
    NotJson Demo.from (or_introl eq_refl)) as H.
  cbv zeta in H. destruct H as (Hd & _ & _ & _ & _ & He & _).
  split; [exact Hd|exact He].
Defined.

(** C8 fails as stated: text that is not JSON, and a datagram the cipher
    does not open, make the handler throw with nothing logged. *)
Lemma failed_datagram_is_not_absorbed :
  _handleResponse Demo.service NotJson Demo.from new_Device =
    (incr_packetReceivedNo new_Device, [], inl SyntaxError) /\
  ~ absorbed_with_log new_Device
      (_handleResponse Demo.service NotJson Demo.from new_Device) /\
  _handleResponse Demo.service (Demo.wire 1 "noise") Demo.from new_Device =
    (incr_packetReceivedNo new_Device, [], inl DecryptError) /\
  ~ absorbed_with_log new_Device
      (_handleResponse Demo.service (Demo.wire 1 "noise") Demo.from new_Device).
Proof.
  split; [reflexivity|]. split; [|split; [reflexivity|]].
  - intros (_ & _ & H). discriminate H.
  - intros (_ & _ & H). discriminate H.
Qed.

(** ** Command responses *)

(** C9. A [res] payload handled while bound writes, for the option at each
    position, the value at that position of [p] when the payload has a [p],
    and of [val] when it has none; then [onUpdate] runs. The options are
    keys of the object: none of them is [__proto__], which names the
    inherited setter. *)
Theorem res_values_from_p_else_val (svc : EncryptionService) (s : Session)
    (msg : Buffer) (rinfo : RInfo) (message : Message) (pack : Pack)
    (opt : list string) (ps : gmap string JsVal) :
  payload_of svc s msg = Some (message, pack) ->
  pack_t pack = Some "res" ->
  pack_opt pack = Some opt ->
  dev_bound (device s) = Some true ->
  dev_props (device s) = Some ps ->
  "__proto__" ∉ opt ->
  let r := _handleResponse svc msg rinfo s in
  let d' := device (state_of r) in
  (forall p,
     pack_p pack = Some p ->
     dev_props d' = Some (write_pairs opt p ps) /\
     events_of r = [OnUpdate d'] /\
     forall i o, opt !! i = Some o -> o ∉ drop (S i) opt ->
       write_pairs opt p ps !! o = Some (index p i)) /\
  (forall val,
     pack_p pack = None -> pack_val pack = Some val ->
     dev_props d' = Some (write_pairs opt val ps) /\
     events_of r = [OnUpdate d'] /\
     forall i o, opt !! i = Some o -> o ∉ drop (S i) opt ->
       write_pairs opt val ps !! o = Some (index val i)).
Proof.
  intros Hp Ht Hopt Hb Hps Hnot r d'.
  assert (forall values, res_values pack = Some values ->
            dev_props d' = Some (write_pairs opt values ps) /\
            events_of r = [OnUpdate d'] /\
            forall i o, opt !! i = Some o -> o ∉ drop (S i) opt ->
              write_pairs opt values ps !! o = Some (index values i)) as H.
  { intros values Hval. subst d' r.
    rewrite (handle_carried svc s msg rinfo message pack opt values ps Hp
               (or_intror (conj Ht (conj Hopt Hval))) Hb Hps Hnot).
    unfold callback_of. rewrite Ht. cbn. repeat split.
    intros i o Hi Hlast.
    apply (write_pairs_from_last _ _ _ i 0%nat); assumption. }
  split.
  - intros p Hpp. apply H. unfold res_values. rewrite Hpp. reflexivity.
  - intros val Hpp Hval. apply H. unfold res_values. rewrite Hpp. exact Hval.
Qed.

(** [{t: "res", opt: ["Pow"], val: [0]}] on a bound session: [props.Pow]
    is 0. *)
Lemma res_values_from_p_else_val_witness :
  let r := _handleResponse Demo.service (Demo.wire 0 "res-val") Demo.from
             Demo.bound_session in
  exists ps, dev_props (device (state_of r)) = Some ps /\
             ps !! "Pow" = Some (JNum 0).
Proof.
  pose proof (res_values_from_p_else_val Demo.service Demo.bound_session
    (Demo.wire 0 "res-val") Demo.from _ (Demo.res_val ["Pow"] [JNum 0])
    ["Pow"] ∅ eq_refl eq_refl eq_refl eq_refl eq_refl
    (not_proto_in ["Pow"] eq_refl)) as H.
  cbv zeta in H. destruct H as [_ H].
  destruct (H [JNum 0] eq_refl eq_refl) as (Hprops & _ & Hlast).
  eexists. split; [exact Hprops|].
  apply (Hlast 0%nat "Pow"); [reflexivity|]. cbn. apply not_elem_of_nil.
Defined.

(** ** The frame of a bind confirmation *)

(** C10. An honoured [bindok] writes [bound] and [key] and nothing else of
    the device: id, name, address, port and [props] are as before, whatever
    id the envelope of the [bindok] carries. *)
Theorem bindok_writes_bound_and_key_only (svc : EncryptionService) (s : Session)
    (msg : Buffer) (rinfo : RInfo) (message : Message) (pack : Pack) :
  payload_of svc s msg = Some (message, pack) ->
  pack_t pack = Some "bindok" ->
  truthy (dev_id (device s)) = true ->
  let d := device s in
  let d' := device (state_of (_handleResponse svc msg rinfo s)) in
  dev_id d' = dev_id d /\ dev_name d' = dev_name d /\
  dev_address d' = dev_address d /\ dev_port d' = dev_port d /\
  dev_props d' = dev_props d /\
  dev_bound d' = Some true /\ dev_key d' = pack_key pack.
Proof.
  intros Hp Ht Hid d d'. subst d d'.
  rewrite (handle_opened svc s msg rinfo message pack Hp).
  rewrite (dispatch_bindok svc (incr_packetReceivedNo s) message pack rinfo Ht Hid).
  cbn. repeat split.
Qed.

(** A [bindok] whose envelope says [STRAY], on a session registered as
    [C3D4]: the id stays [C3D4]. *)
Lemma bindok_writes_bound_and_key_only_witness :
  let s := final Demo.service Demo.catalog new_Device [Demo.handshake "dev-v2"] in
  let d' := device (state_of (_handleResponse Demo.service Demo.stray_bindok
                                Demo.from s)) in
  dev_id d' = Some "C3D4" /\ dev_bound d' = Some true /\ dev_key d' = Some "K2".
Proof.
  pose proof (bindok_writes_bound_and_key_only Demo.service
    (final Demo.service Demo.catalog new_Device [Demo.handshake "dev-v2"])
    Demo.stray_bindok Demo.from _ (Demo.bindok "K2")
    eq_refl eq_refl eq_refl) as H.
  cbv zeta in H. destruct H as (Hid & _ & _ & _ & _ & Hb & Hk).
  split; [exact Hid|]. split; [exact Hb|exact Hk].
Defined.

(** ** Requests in the steady state *)

Lemma request_literal_fields (tg : string) (tcid : option string) (i : Z)
    (pk : option string) :
  let request := request_literal tg tcid i pk in
  env_tcid request = tcid /\ env_cid request = "app" /\ env_i request = i /\
  env_t request = "pack" /\ env_uid request = 0 /\ env_pack request = pk.
Proof. unfold request_literal. destruct (String.eqb tg ""); cbn; auto 10. Qed.

(** [_sendRequest] in any session. With a port to send to: one send, one
    more on the counter. Without: [socket.send] throws and the line that
    counts is not reached. The device and the version are not written
    either way. *)
Lemma _sendRequest_run (svc : EncryptionService) (message : Request)
    (address : option string) (port : option Z) (s : Session) :
  let r := _sendRequest svc message address port s in
  let port' := match port with Some p => Some p | None => dev_port (device s) end in
  let address' :=
    match address with Some a => Some a | None => dev_address (device s) end in
  device (state_of r) = device s /\
  encryptionVersion (state_of r) = encryptionVersion s /\
  packetReceivedNo (state_of r) = packetReceivedNo s /\
  match port' with
  | Some _ =>
      outcome_of r = inr tt /\
      packetSentNo (state_of r) = packetSentNo s + 1 /\
      exists request,
        events_of r = [Send request port' address'] /\
        env_tcid request = dev_id (device s) /\ env_cid request = "app" /\
        env_i request = 0 /\ env_t request = "pack" /\ env_uid request = 0 /\
        env_pack request =
          ciphertext svc (encryptionVersion s) message (dev_key (device s))
  | None =>
      outcome_of r = inl RangeError /\
      packetSentNo (state_of r) = packetSentNo s /\
      events_of r = []
  end.
Proof.
  unfold _sendRequest, ciphertext. unfold_js.
  destruct (match port with Some p => Some p | None => dev_port (device s) end)
    as [p|];
    (destruct (encryptionVersion s =? 1); cbn;
     [|destruct (encryptionVersion s =? 2); cbn]);
    repeat (split; [reflexivity|]);
    try reflexivity;
    (eexists; split; [reflexivity|]);
    first [apply request_literal_fields | cbn; auto 10].
Qed.

(** What the runs need of [_sendRequest]: it counts what it sends, and
    what it sends is addressed. *)
Lemma _sendRequest_effects (svc : EncryptionService) (message : Request)
    (address : option string) (port : option Z) (s : Session) :
  let r := _sendRequest svc message address port s in
  let port' := match port with Some p => Some p | None => dev_port (device s) end in
  let address' :=
    match address with Some a => Some a | None => dev_address (device s) end in
  device (state_of r) = device s /\
  packetReceivedNo (state_of r) = packetReceivedNo s /\
  packetSentNo (state_of r) =
    packetSentNo s + Z.of_nat (count_sent (events_of r)) /\
  (events_of r = [] \/
   exists request,
     events_of r = [Send request port' address'] /\
     env_tcid request = dev_id (device s) /\ env_cid request = "app" /\
     env_i request = 0 /\ env_t request = "pack" /\ env_uid request = 0).
Proof.
  pose proof (_sendRequest_run svc message address port s) as H.
  cbv zeta in H |- *. destruct H as (Hd & _ & Hr & H).
  split; [assumption|]. split; [assumption|].
  destruct (match port with Some p => Some p | None => dev_port (device s) end)
    as [p|].
  - destruct H as (_ & Hs & request & Hev & H1 & H2 & H3 & H4 & H5 & _).
    rewrite Hev, Hs. cbn. split; [lia|]. right. exists request. auto 10.
  - destruct H as (_ & Hs & Hev). rewrite Hev, Hs. cbn. split; [lia|auto].
Qed.



(** ** The setters *)

Section SetterFacts.

Variable svc : EncryptionService.
Variable cmd : CommandEnums.

(** The lists a setter hands to [_sendCommand]. *)
Lemma call_is_sendCommand (c : Setter) :
  exists opt p,
    call svc cmd c = _sendCommand svc opt p /\
    length opt = length p /\
    (length opt = 1%nat \/ length opt = 2%nat).
Proof.
  destruct c; cbn; unfold setPower, setTemp, setMode, setFanSpeed,
    setSwingHor, setSwingVert, setPowerSave, setLights, setHealthMode,
    setQuietMode, setBlow, setAir, setSleepMode, setTurbo;
    do 2 eexists; (split; [reflexivity|]); cbn; auto.
Qed.

End SetterFacts.



(** ** Status payloads at the edges *)

Lemma eq_lit_true (x : option string) (lit : string) :
  eq_lit x lit = true -> x = Some lit.
Proof.
  destruct x as [v|]; [|discriminate]. cbn. intros H.
  apply String.eqb_eq in H. congruence.
Qed.

Lemma eq_lit_false (x : option string) (lit : string) :
  x <> Some lit -> eq_lit x lit = false.
Proof.
  intros H. destruct (eq_lit x lit) eqn:E; [|reflexivity].
  destruct (H (eq_lit_true _ _ E)).
Qed.

Section Edges.

Variable svc : EncryptionService.

(** A bound [dat] or [res] whose code list is missing, or whose code list
    is not empty while the value list is missing: the first read through
    [undefined] throws before anything is written. *)
Lemma dispatch_without_a_list (s : Session) (message : Message) (pack : Pack)
    (rinfo : RInfo) :
  dev_bound (device s) = Some true ->
  (pack_t pack = Some "dat" /\
   (pack_cols pack = None \/
    exists c rest, pack_cols pack = Some (c :: rest) /\ pack_dat pack = None)) \/
  (pack_t pack = Some "res" /\
   (pack_opt pack = None \/
    exists o rest, pack_opt pack = Some (o :: rest) /\
                   pack_p pack = None /\ pack_val pack = None)) ->
  dispatch svc message pack rinfo s = (s, [], inl TypeError).
Proof.
  intros Hb H. unfold dispatch, forEach.
  unfold bind, gets, defined, throw. rewrite Hb.
  rewrite bool_decide_eq_true_2 by reflexivity.
  destruct H as [(Ht & [Hc|(c & rest & Hc & Hd)])|(Ht & [Hc|(o & rest & Hc & Hp & Hv)])];
    rewrite Ht, Hc; cbn; try reflexivity.
  - unfold bind, store_dat, defined, throw. rewrite Hd. reflexivity.
  - unfold bind, store_res, defined, throw. rewrite Hp, Hv. reflexivity.
Qed.

(** A bound [dat] or [res] with an empty code list reads no value and makes
    no write. *)
Lemma dispatch_empty_list (s : Session) (message : Message) (pack : Pack)
    (rinfo : RInfo) :
  dev_bound (device s) = Some true ->
  (pack_t pack = Some "dat" /\ pack_cols pack = Some []) \/
  (pack_t pack = Some "res" /\ pack_opt pack = Some []) ->
  dispatch svc message pack rinfo s =
    (s, [callback_of pack (device s)], inr tt).
Proof.
  intros Hb H. unfold dispatch, forEach, callback_of.
  unfold bind, gets, defined, throw, ret, emit. rewrite Hb.
  rewrite bool_decide_eq_true_2 by reflexivity.
  destruct H as [(Ht & Hc)|(Ht & Hc)]; rewrite Ht, Hc; reflexivity.
Qed.

(** What [payload_of] reads of the session. *)
Lemma payload_of_ext (s s' : Session) (msg : Buffer) :
  encryptionVersion s' = encryptionVersion s ->
  dev_key (device s') = dev_key (device s) ->
  payload_of svc s' msg = payload_of svc s msg.
Proof.
  intros Hv Hk. unfold payload_of, decrypt_key. rewrite Hv, Hk. reflexivity.
Qed.

End Edges.

Lemma dom_write_pairs_from (values : list JsVal) (codes : list string) :
  forall (k : nat) (ps : gmap string JsVal),
    dom (write_pairs_from k codes values ps) = dom ps ∪ list_to_set codes.
Proof.
  induction codes as [|c rest IH]; intros k ps; cbn.
  - rewrite union_empty_r_L. reflexivity.
  - rewrite IH, dom_insert_L.
    rewrite (comm_L (∪) {[c]} (dom ps)), <- (assoc_L (∪)). reflexivity.
Qed.

(** Only the values at the positions of the codes are read. *)
Lemma write_pairs_from_ext (values values' : list JsVal) (codes : list string) :
  forall (k : nat) (ps : gmap string JsVal),
    (forall i, (k <= i < k + length codes)%nat -> index values i = index values' i) ->
    write_pairs_from k codes values ps = write_pairs_from k codes values' ps.
Proof.
  induction codes as [|c rest IH]; intros k ps H; cbn; [reflexivity|].
  rewrite (H k) by (cbn; lia). apply IH.
  intros i Hi. apply H. cbn. lia.
Qed.

Lemma index_take (values : list JsVal) (n i : nat) :
  (i < n)%nat -> index (take n values) i = index values i.
Proof. intros H. unfold index. rewrite lookup_take_lt by assumption. reflexivity. Qed.

Lemma last_at_exists (code : string) (codes : list string) :
  code ∈ codes -> exists i, last_at codes i code.
Proof.
  unfold last_at. induction codes as [|c rest IH]; intros Hin.
  - apply elem_of_nil in Hin. destruct Hin.
  - destruct (decide (code ∈ rest)) as [Hrest|Hrest].
    + destruct (IH Hrest) as (i & Hi & Hlast). exists (S i). auto.
    + apply elem_of_cons in Hin as [->|Hin]; [|contradiction].
      exists 0%nat. split; [reflexivity|]. exact Hrest.
Qed.

(** Writing the same pairs again changes nothing. *)
Lemma write_pairs_from_twice (values : list JsVal) (codes : list string)
    (k : nat) (ps : gmap string JsVal) :
  write_pairs_from k codes values (write_pairs_from k codes values ps) =
    write_pairs_from k codes values ps.
Proof.
  apply map_eq. intros code. destruct (decide (code ∈ codes)) as [Hin|Hnot].
  - destruct (last_at_exists code codes Hin) as (i & Hi & Hlast).
    rewrite !(write_pairs_from_last code values codes i k) by assumption.
    reflexivity.
  - rewrite !write_pairs_from_notin by assumption. reflexivity.
Qed.

(** X4. A [dat] or [res] handled while bound that has no code list, or a
    non-empty code list and no value list, makes the handler throw a
    [TypeError]: the datagram is counted, nothing is written to the device,
    no callback runs and nothing is logged. *)
Theorem status_without_a_list_throws (svc : EncryptionService) (s : Session)
    (msg : Buffer) (rinfo : RInfo) (message : Message) (pack : Pack) :
  payload_of svc s msg = Some (message, pack) ->
  dev_bound (device s) = Some true ->
  (pack_t pack = Some "dat" /\
   (pack_cols pack = None \/
    exists c rest, pack_cols pack = Some (c :: rest) /\ pack_dat pack = None)) \/
  (pack_t pack = Some "res" /\
   (pack_opt pack = None \/
    exists o rest, pack_opt pack = Some (o :: rest) /\
                   pack_p pack = None /\ pack_val pack = None)) ->
  _handleResponse svc msg rinfo s =
    (incr_packetReceivedNo s, [], inl TypeError).
Proof.
  intros Hp Hb H. rewrite (handle_opened svc s msg rinfo message pack Hp).
  apply dispatch_without_a_list; assumption.
Qed.

Lemma status_without_a_list_throws_witness :
  _handleResponse Demo.service2 (Demo.wire 0 "dat-no-values") Demo.from
    Demo.bound_session2 =
  (incr_packetReceivedNo Demo.bound_session2, [], inl TypeError).
Proof.
  apply (status_without_a_list_throws Demo.service2 Demo.bound_session2
    (Demo.wire 0 "dat-no-values") Demo.from _ Demo.dat_no_values
    eq_refl eq_refl).
  left. split; [reflexivity|]. right. exists "Pow", []. split; reflexivity.
Defined.

(** X5. A [dat] or [res] handled while bound whose code list is empty
    writes nothing and still runs its callback once with the device as it
    is, whether or not the payload has a value list. *)
Theorem empty_status_still_notifies (svc : EncryptionService) (s : Session)
    (msg : Buffer) (rinfo : RInfo) (message : Message) (pack : Pack) :
  payload_of svc s msg = Some (message, pack) ->
  dev_bound (device s) = Some true ->
  (pack_t pack = Some "dat" /\ pack_cols pack = Some []) \/
  (pack_t pack = Some "res" /\ pack_opt pack = Some []) ->
  _handleResponse svc msg rinfo s =
    (incr_packetReceivedNo s, [callback_of pack (device s)], inr tt).
Proof.
  intros Hp Hb H. rewrite (handle_opened svc s msg rinfo message pack Hp).
  apply (dispatch_empty_list svc (incr_packetReceivedNo s)); assumption.
Qed.

Lemma empty_status_still_notifies_witness :
  _handleResponse Demo.service2 (Demo.wire 0 "dat-empty") Demo.from
    Demo.bound_session2 =
  (incr_packetReceivedNo Demo.bound_session2,
   [OnStatus (device Demo.bound_session2)], inr tt).
Proof.
  apply (empty_status_still_notifies Demo.service2 Demo.bound_session2
    (Demo.wire 0 "dat-empty") Demo.from _ Demo.dat_empty eq_refl eq_refl).
  left. split; reflexivity.
Defined.

(** X6. A [dat] or [res] handled while bound, none of whose codes is
    [__proto__], adds to [props] exactly the keys of its code list. Values
    past the end of the code list are never read, and a code with no value
    at its position is stored with the value [undefined]. *)
Theorem status_adds_exactly_its_codes (svc : EncryptionService) (s : Session)
    (msg : Buffer) (rinfo : RInfo) (message : Message) (pack : Pack)
    (codes : list string) (values : list JsVal) (ps : gmap string JsVal) :
  payload_of svc s msg = Some (message, pack) ->
  carries pack codes values ->
  dev_bound (device s) = Some true ->
  dev_props (device s) = Some ps ->
  "__proto__" ∉ codes ->
  exists ps',
    dev_props (device (state_of (_handleResponse svc msg rinfo s))) = Some ps' /\
    dom ps' = dom ps ∪ list_to_set codes /\
    ps' = write_pairs codes (take (length codes) values) ps /\
    (forall i code,
       last_at codes i code -> (length values <= i)%nat ->
       ps' !! code = Some JUndefined).
Proof.
  intros Hp Hc Hb Hps Hnot.
  rewrite (handle_carried svc s msg rinfo message pack codes values ps
             Hp Hc Hb Hps Hnot).
  exists (write_pairs codes values ps). cbn. split; [reflexivity|].
  split; [apply dom_write_pairs_from|]. split.
  - apply write_pairs_from_ext. intros i Hi.
    symmetry. apply index_take. lia.
  - intros i code [Hi Hlast] Hshort. unfold write_pairs.
    rewrite (write_pairs_from_last code values codes i 0%nat) by assumption.
    unfold index. cbn. rewrite (lookup_ge_None_2 values i Hshort). reflexivity.
Qed.

(** [{cols: ["Pow", "SetTem"], dat: [1]}]: [SetTem] becomes a key with the
    value [undefined]. *)
Lemma status_adds_exactly_its_codes_witness :
  exists ps',
    dev_props (device (state_of
      (_handleResponse Demo.service2 (Demo.wire 0 "dat-short") Demo.from
         Demo.bound_session2))) = Some ps' /\
    ps' !! "SetTem" = Some JUndefined.
Proof.
  destruct (status_adds_exactly_its_codes Demo.service2 Demo.bound_session2
    (Demo.wire 0 "dat-short") Demo.from _
    (Demo.dat ["Pow"; "SetTem"] [JNum 1]) ["Pow"; "SetTem"] [JNum 1] ∅
    eq_refl (or_introl (conj eq_refl (conj eq_refl eq_refl))) eq_refl eq_refl
    (not_proto_in ["Pow"; "SetTem"] eq_refl))
    as (ps' & Hprops & _ & _ & Hpad).
  exists ps'. split; [exact Hprops|].
  apply (Hpad 1%nat "SetTem").
  - split; [reflexivity|]. cbn. apply not_elem_of_nil.
  - cbn. lia.
Defined.

(** X7. Handling the same [dat] or [res] datagram, none of whose codes is
    [__proto__], a second time on a bound session leaves the device exactly
    as the first time left it and runs the callback again with that same
    device. *)
Theorem repeated_status_changes_nothing (svc : EncryptionService) (s : Session)
    (msg : Buffer) (rinfo : RInfo) (message : Message) (pack : Pack)
    (codes : list string) (values : list JsVal) (ps : gmap string JsVal) :
  payload_of svc s msg = Some (message, pack) ->
  carries pack codes values ->
  dev_bound (device s) = Some true ->
  dev_props (device s) = Some ps ->
  "__proto__" ∉ codes ->
  let r1 := _handleResponse svc msg rinfo s in
  let r2 := _handleResponse svc msg rinfo (state_of r1) in
  device (state_of r2) = device (state_of r1) /\
  events_of r2 = events_of r1 /\
  outcome_of r2 = inr tt.
Proof.
  intros Hp Hc Hb Hps Hnot r1 r2. subst r2 r1.
  rewrite (handle_carried svc s msg rinfo message pack codes values ps
             Hp Hc Hb Hps Hnot).
  cbn [state_of events_of fst snd].
  set (s1 := set_device _ _).
  assert (payload_of svc s1 msg = Some (message, pack)) as Hp1.
  { rewrite <- Hp. apply payload_of_ext; reflexivity. }
  rewrite (handle_carried svc s1 msg rinfo message pack codes values
             (write_pairs codes values ps) Hp1 Hc Hb eq_refl Hnot).
  subst s1. cbn. unfold with_props, write_pairs. cbn.
  rewrite write_pairs_from_twice. auto.
Qed.

Lemma repeated_status_changes_nothing_witness :
  let r1 := _handleResponse Demo.service (Demo.wire 0 "dat-1") Demo.from
              Demo.bound_session in
  let r2 := _handleResponse Demo.service (Demo.wire 0 "dat-1") Demo.from
              (state_of r1) in
  device (state_of r2) = device (state_of r1).
Proof.
  apply (repeated_status_changes_nothing Demo.service Demo.bound_session
    (Demo.wire 0 "dat-1") Demo.from _
    (Demo.dat ["Pow"; "SetTem"] [JNum 1; JNum 24])
    ["Pow"; "SetTem"] [JNum 1; JNum 24] ∅
    eq_refl (or_introl (conj eq_refl (conj eq_refl eq_refl))) eq_refl eq_refl
    (not_proto_in ["Pow"; "SetTem"] eq_refl)).
Defined.

(** ** Other payloads *)

(** X8. A payload whose kind is none of [dev], [bindok], [dat], [res], or
    that has no kind at all, is counted and logged as unknown; nothing else
    of the session changes, whatever the state. *)
Theorem unknown_kind_is_only_logged (svc : EncryptionService) (s : Session)
    (msg : Buffer) (rinfo : RInfo) (message : Message) (pack : Pack) :
  payload_of svc s msg = Some (message, pack) ->
  pack_t pack <> Some "dev" -> pack_t pack <> Some "bindok" ->
  pack_t pack <> Some "dat" -> pack_t pack <> Some "res" ->
  _handleResponse svc msg rinfo s =
    (incr_packetReceivedNo s, [ConsoleLog (LogUnknown (pack_t pack))], inr tt).
Proof.
  intros Hp H1 H2 H3 H4.
  rewrite (handle_opened svc s msg rinfo message pack Hp).
  apply dispatch_unknown.
  - apply eq_lit_false. assumption.
  - rewrite (eq_lit_false _ _ H2). reflexivity.
  - rewrite (eq_lit_false _ _ H3), (eq_lit_false _ _ H4). reflexivity.
Qed.

Lemma unknown_kind_is_only_logged_witness :
  _handleResponse Demo.service2 (Demo.wire 0 "pong") Demo.from
    Demo.bound_session2 =
  (incr_packetReceivedNo Demo.bound_session2,
   [ConsoleLog (LogUnknown (Some "pong"))], inr tt).
Proof.
  apply (unknown_kind_is_only_logged Demo.service2 Demo.bound_session2
    (Demo.wire 0 "pong") Demo.from _ Demo.pong eq_refl);
    discriminate.
Defined.

(** X9. On a session that is already on version 2, a [dev] reply takes the
    device id from the envelope ([message.cid]), also when its version
    string starts with "V2."; the version stays 2, [bound] is reset and the
    stored key is kept. *)
Theorem dev_reply_on_version_2_takes_envelope_id (svc : EncryptionService)
    (s : Session) (msg : Buffer) (rinfo : RInfo) (message : Message)
    (pack : Pack) :
  payload_of svc s msg = Some (message, pack) ->
  pack_t pack = Some "dev" ->
  encryptionVersion s = 2 ->
  let s' := state_of (_handleResponse svc msg rinfo s) in
  encryptionVersion s' = 2 /\
  dev_id (device s') = msg_cid message /\
  dev_bound (device s') = Some false /\
  dev_key (device s') = dev_key (device s).
Proof.
  intros Hp Ht Hv s'. subst s'.
  rewrite (handle_opened svc s msg rinfo message pack Hp).
  destruct (dispatch_dev svc (incr_packetReceivedNo s) message pack rinfo Ht)
    as (_ & Hv' & Hd & _).
  rewrite Hv', Hd. cbn. rewrite Hv. cbn. auto.
Qed.

(** The device announced itself as [C3D4] inside a first "V2.0.0" reply;
    the same reply again registers it as [OUTER]. *)
Lemma dev_reply_on_version_2_takes_envelope_id_witness :
  let s := final Demo.service Demo.catalog new_Device [Demo.handshake "dev-v2"] in
  dev_id (device s) = Some "C3D4" /\
  dev_id (device (state_of
    (_handleResponse Demo.service (Demo.wire 1 "dev-v2") Demo.from s)))
  = Some "OUTER".
Proof.
  cbv zeta. split; [reflexivity|].
  apply (dev_reply_on_version_2_takes_envelope_id Demo.service
    (final Demo.service Demo.catalog new_Device [Demo.handshake "dev-v2"])
    (Demo.wire 1 "dev-v2") Demo.from _ Demo.dev_v2 eq_refl eq_refl eq_refl).
Defined.

(** ** More on what a reaction can change *)

Lemma forEach_preserves (R : Session -> Session -> Prop)
    (f : string -> nat -> M unit) :
  (forall s, R s s) ->
  (forall a b c, R a b -> R b c -> R a c) ->
  (forall c i s, R s (state_of (f c i s))) ->
  forall (l : list string) (i : nat) (s : Session),
    R s (state_of (forEach_from i l f s)).
Proof.
  intros Hrefl Htrans Hf. induction l as [|c rest IH]; intros i s; cbn.
  - apply Hrefl.
  - unfold bind. pose proof (Hf c i s) as H1.
    destruct (f c i s) as [[s1 ev1] [e|[]]]; cbn in *; [exact H1|].
    pose proof (IH (S i) s1) as H2.
    destruct (forEach_from (S i) rest f s1) as [[s2 ev2] r]; cbn in *.
    eapply Htrans; eassumption.
Qed.

Lemma counters_kept_refl s : counters_kept s s.
Proof. unfold counters_kept. auto. Qed.

Lemma counters_kept_trans a b c :
  counters_kept a b -> counters_kept b c -> counters_kept a c.
Proof. unfold counters_kept. intros (?&?&?) (?&?&?). repeat split; congruence. Qed.

Lemma write_prop_counters (code : string) (value : JsVal) (s : Session) :
  counters_kept s (state_of (write_prop code value s)).
Proof.
  unfold write_prop, counters_kept. unfold_js.
  destruct (dev_props (device s)); cbn; [|auto].
  destruct (String.eqb code "__proto__" && props_inherits s); [|cbn; auto].
  destruct value; cbn; auto.
Qed.

Lemma store_dat_counters (pack : Pack) (col : string) (i : nat) (s : Session) :
  counters_kept s (state_of (store_dat pack col i s)).
Proof.
  unfold store_dat, bind, defined.
  destruct (pack_dat pack) as [values|]; cbn; [|apply counters_kept_refl].
  pose proof (write_prop_counters col (index values i) s) as H.
  destruct (write_prop _ _ s) as [[s' evs] [e|[]]]; exact H.
Qed.

Lemma store_res_counters (pack : Pack) (opt : string) (i : nat) (s : Session) :
  counters_kept s (state_of (store_res pack opt i s)).
Proof.
  unfold store_res, bind, defined.
  destruct (pack_p pack) as [p|]; cbn.
  - pose proof (write_prop_counters opt (index p i) s) as H.
    destruct (write_prop _ _ s) as [[s' evs] [e|[]]]; exact H.
  - destruct (pack_val pack) as [val|]; cbn; [|apply counters_kept_refl].
    pose proof (write_prop_counters opt (index val i) s) as H.
    destruct (write_prop _ _ s) as [[s' evs] [e|[]]]; exact H.
Qed.

Lemma reports_not_sent (evs : list Event) :
  Forall is_report evs -> count_sent evs = 0%nat.
Proof.
  induction 1 as [|e evs He _ IH]; [reflexivity|].
  destruct e; cbn in *; tauto.
Qed.

Lemma reports_no_timer (evs : list Event) :
  Forall is_report evs ->
  count_SetInterval evs = 0%nat /\ Forall polls_every_3s evs.
Proof.
  induction 1 as [|e evs He _ [IH1 IH2]]; [split; [reflexivity|constructor]|].
  destruct e; cbn in *; try tauto; (split; [assumption|]);
    constructor; cbn; auto.
Qed.

Section Steps.

Variable svc : EncryptionService.
Variable cmd_codes : list string.

Local Abbreviation final := (final svc cmd_codes).
Local Abbreviation trace := (trace svc cmd_codes).
Local Abbreviation state_after := (state_after svc cmd_codes).
Local Abbreviation events_after := (events_after svc cmd_codes).

(** The branches of [dispatch] other than [dev] and an honoured [bindok]
    write neither the tag nor a counter. *)
Lemma dispatch_counters (s : Session) (message : Message) (pack : Pack)
    (rinfo : RInfo) :
  eq_lit (pack_t pack) "dev" = false ->
  eq_lit (pack_t pack) "bindok" && truthy (dev_id (device s)) = false ->
  counters_kept s (state_of (dispatch svc message pack rinfo s)).
Proof.
  intros H1 H2. unfold dispatch, forEach.
  unfold bind, gets, ret, emit, defined, throw. rewrite H1, H2. cbn.
  destruct (eq_lit (pack_t pack) "dat" && _); cbn.
  { destruct (pack_cols pack) as [cols|]; cbn; [|apply counters_kept_refl].
    pose proof (forEach_preserves counters_kept (store_dat pack)
      counters_kept_refl counters_kept_trans (store_dat_counters pack)
      cols 0%nat s) as H.
    destruct (forEach_from 0 cols _ s) as [[s1 ev1] [e|[]]]; exact H. }
  destruct (eq_lit (pack_t pack) "res" && _); cbn.
  { destruct (pack_opt pack) as [opt|]; cbn; [|apply counters_kept_refl].
    pose proof (forEach_preserves counters_kept (store_res pack)
      counters_kept_refl counters_kept_trans (store_res_counters pack)
      opt 0%nat s) as H.
    destruct (forEach_from 0 opt _ s) as [[s1 ev1] [e|[]]]; exact H. }
  apply counters_kept_refl.
Qed.

(** The [dev] branch of [dispatch]: one bind request to the device as just
    registered, one more send on the counter. *)
Lemma dispatch_dev_run (s : Session) (message : Message) (pack : Pack)
    (rinfo : RInfo) :
  pack_t pack = Some "dev" ->
  let r := dispatch svc message pack rinfo s in
  let d' := device (state_of r) in
  packetSentNo (state_of r) = packetSentNo s + 1 /\
  packetReceivedNo (state_of r) = packetReceivedNo s /\
  exists line request,
    events_of r =
      [ConsoleLog line; Send request (dev_port d') (dev_address d')] /\
    env_i request = 1 /\
    addressed_to d' request (dev_port d') (dev_address d').
Proof.
  intros Ht. unfold dispatch, addressed_to. unfold_js. rewrite Ht. cbn.
  destruct ((encryptionVersion s =? 1) && ver_is_V2 (pack_ver pack)); cbn;
    [|destruct (encryptionVersion s =? 1); cbn;
      [|destruct (encryptionVersion s =? 2); cbn]];
    (split; [reflexivity|]); (split; [reflexivity|]);
    do 2 eexists; (split; [reflexivity|]);
    match goal with
    | |- context [request_literal ?tg ?tcid ?i ?pk] =>
        destruct (request_literal_fields tg tcid i pk)
          as (H1 & H2 & H3 & H4 & H5 & _); auto 10
    | _ => cbn; auto 10
    end.
Qed.

(** What a [dev] reply writes of the device besides [bound] and [props]. *)
Lemma react_dev_device (s : Session) (x : Stimulus) :
  is_dev_reply svc s x = true ->
  exists rinfo,
    sender x = Some rinfo /\
    dev_address (device (state_after s x)) = Some (rinfo_address rinfo) /\
    dev_port (device (state_after s x)) = Some (rinfo_port rinfo) /\
    dev_key (device (state_after s x)) = dev_key (device s).
Proof.
  unfold is_dev_reply, inbound_with, state_after.
  destruct x as [|msg rinfo| |]; try discriminate. cbn [react].
  destruct (payload_of svc s msg) as [[message pack]|] eqn:Hp; [|discriminate].
  intros Ht. apply eq_lit_true in Ht.
  rewrite (handle_opened _ _ _ _ _ _ Hp).
  destruct (dispatch_dev svc (incr_packetReceivedNo s) message pack rinfo Ht)
    as (_ & _ & Hd & _).
  exists rinfo. rewrite Hd. cbn. auto.
Qed.

(** The counters over one reaction. *)
Lemma counters_step (s : Session) (x : Stimulus) :
  packetReceivedNo (state_after s x) =
    packetReceivedNo s + Z.of_nat (count_inbound [x]) /\
  packetSentNo (state_after s x) =
    packetSentNo s + Z.of_nat (count_sent (events_after s x)).
Proof.
  unfold state_after, events_after.
  destruct x as [|msg rinfo| |commands values]; cbn [react count_inbound].
  - unfold_js. cbn. split; lia.
  - destruct (payload_of svc s msg) as [[message pack]|] eqn:Hp.
    2:{ destruct (handle_failed svc s msg rinfo Hp) as [e ->]. cbn. split; lia. }
    rewrite (handle_opened svc s msg rinfo message pack Hp).
    destruct (eq_lit (pack_t pack) "dev") eqn:Hdev.
    { apply eq_lit_true in Hdev.
      destruct (dispatch_dev_run (incr_packetReceivedNo s) message pack rinfo Hdev)
        as (H1 & H2 & line & request & Hev & _).
      rewrite H1, H2, Hev. cbn. split; lia. }
    destruct (eq_lit (pack_t pack) "bindok" && truthy (dev_id (device s))) eqn:Hb.
    { apply andb_prop in Hb as [Ht Hid]. apply eq_lit_true in Ht.
      rewrite (dispatch_bindok svc (incr_packetReceivedNo s) message pack rinfo Ht Hid).
      cbn. split; lia. }
    destruct (dispatch_counters (incr_packetReceivedNo s) message pack rinfo Hdev Hb)
      as (_ & H1 & H2).
    destruct (dispatch_kept svc (incr_packetReceivedNo s) message pack rinfo Hdev Hb)
      as [_ Hq].
    rewrite H1, H2, (reports_not_sent _ Hq). cbn. split; lia.
  - unfold _requestDeviceStatus, bind, gets. cbn.
    destruct (_sendRequest_effects svc (StatusMsg cmd_codes (dev_id (device s)))
                (dev_address (device s)) (dev_port (device s)) s)
      as (_ & H1 & H2 & _).
    destruct (_sendRequest _ _ _ _ s) as [[s1 ev1] r]. cbn in *.
    split; lia.
  - unfold _sendCommand.
    destruct (_sendRequest_effects svc (CmdMsg commands values) None None s)
      as (_ & H1 & H2 & _).
    rewrite H1, H2. split; lia.
Qed.

(** The timers started by one reaction. *)
Lemma timers_step (s : Session) (x : Stimulus) :
  count_SetInterval (events_after s x) =
    (if is_honoured_bindok svc s x then 1%nat else 0%nat) /\
  Forall polls_every_3s (events_after s x).
Proof.
  unfold is_honoured_bindok, inbound_with, events_after.
  destruct x as [|msg rinfo| |commands values]; cbn [react].
  - unfold_js. cbn. split; [reflexivity|repeat constructor].
  - destruct (payload_of svc s msg) as [[message pack]|] eqn:Hp.
    2:{ destruct (handle_failed svc s msg rinfo Hp) as [e ->]. cbn.
        split; [reflexivity|constructor]. }
    rewrite (handle_opened svc s msg rinfo message pack Hp).
    destruct (eq_lit (pack_t pack) "dev") eqn:Hdev.
    { pose proof (eq_lit_true _ _ Hdev) as Ht.
      destruct (dispatch_dev_run (incr_packetReceivedNo s) message pack rinfo Ht)
        as (_ & _ & line & request & Hev & _).
      rewrite Hev, Ht. cbn. split; [reflexivity|repeat constructor]. }
    destruct (eq_lit (pack_t pack) "bindok" && truthy (dev_id (device s))) eqn:Hb.
    { apply andb_prop in Hb as [Ht Hid]. apply eq_lit_true in Ht.
      rewrite (dispatch_bindok svc (incr_packetReceivedNo s) message pack rinfo Ht Hid).
      cbn. split; [reflexivity|repeat constructor]. }
    destruct (dispatch_kept svc (incr_packetReceivedNo s) message pack rinfo Hdev Hb)
      as [_ Hq].
    apply reports_no_timer. exact Hq.
  - unfold _requestDeviceStatus, bind, gets. cbn.
    destruct (_sendRequest_effects svc (StatusMsg cmd_codes (dev_id (device s)))
                (dev_address (device s)) (dev_port (device s)) s)
      as (_ & _ & _ & [Hev|(request & Hev & _)]);
      destruct (_sendRequest _ _ _ _ s) as [[s1 ev1] r]; cbn in *; subst ev1;
      (split; [reflexivity|repeat constructor]).
  - unfold _sendCommand.
    destruct (_sendRequest_effects svc (CmdMsg commands values) None None s)
      as (_ & _ & _ & [Hev|(request & Hev & _)]);
      rewrite Hev; (split; [reflexivity|repeat constructor]).
Qed.

End Steps.

Section Invariants.

Variable svc : EncryptionService.
Variable cmd_codes : list string.

Local Abbreviation final := (final svc cmd_codes).
Local Abbreviation trace := (trace svc cmd_codes).
Local Abbreviation state_after := (state_after svc cmd_codes).
Local Abbreviation events_after := (events_after svc cmd_codes).

Lemma honoured_bindok_has_id (s : Session) (x : Stimulus) :
  is_honoured_bindok svc s x = true -> truthy (dev_id (device s)) = true.
Proof. unfold is_honoured_bindok. intros H. apply andb_prop in H. tauto. Qed.

Lemma registered_step (s : Session) (x : Stimulus) :
  registered s -> registered (state_after s x).
Proof.
  intros [Hreg1 Hreg2]. unfold registered.
  destruct (is_dev_reply svc s x) eqn:Hd.
  - destruct (react_dev svc cmd_codes s x Hd) as (Hb & Hp & _).
    rewrite Hb, Hp. split; [discriminate|eauto].
  - destruct (is_honoured_bindok svc s x) eqn:Hb.
    + pose proof (honoured_bindok_has_id s x Hb) as Hid.
      destruct (react_bindok svc cmd_codes s x Hb) as (_ & _ & [key ->] & _).
      cbn. auto.
    + destruct (react_kept svc cmd_codes s x Hd Hb)
        as [(_ & Hid & _ & _ & _ & Hbound & _ & Hprops) _].
      rewrite Hid, Hbound. split; [assumption|].
      intros H. destruct (Hreg2 H) as [ps Hps]. rewrite Hps in Hprops.
      destruct (dev_props (device (state_after s x))); [eauto|destruct Hprops].
Qed.

Lemma registered_run (xs : list Stimulus) :
  forall s, registered s -> registered (final s xs).
Proof.
  induction xs as [|x xs IH]; intros s Hs; [exact Hs|].
  rewrite final_cons. apply IH, registered_step, Hs.
Qed.

Lemma registered_new_Device : registered new_Device.
Proof. split; discriminate. Qed.

(** Only a [dev] reply writes id, name, address and port. *)
Lemma identity_step (s : Session) (x : Stimulus) :
  is_dev_reply svc s x = false ->
  identity_kept (device s) (device (state_after s x)).
Proof.
  intros Hd. unfold identity_kept.
  destruct (is_honoured_bindok svc s x) eqn:Hb.
  - destruct (react_bindok svc cmd_codes s x Hb) as (_ & _ & [key ->] & _).
    cbn. auto.
  - destruct (react_kept svc cmd_codes s x Hd Hb)
      as [(_ & H1 & H2 & H3 & H4 & _) _]. auto.
Qed.

Lemma identity_run (xs : list Stimulus) :
  forall s, dev_free svc cmd_codes s xs = true ->
    identity_kept (device s) (device (final s xs)).
Proof.
  induction xs as [|x xs IH]; intros s Hfree.
  - unfold identity_kept. auto.
  - cbn in Hfree. apply andb_prop in Hfree as [Hx Hrest].
    apply negb_true_iff in Hx. rewrite final_cons.
    destruct (identity_step s x Hx) as (H1 & H2 & H3 & H4).
    destruct (IH _ Hrest) as (G1 & G2 & G3 & G4).
    unfold identity_kept. repeat split; congruence.
Qed.

(** Only an honoured [bindok] writes the key. *)
Lemma key_step (s : Session) (x : Stimulus) :
  is_honoured_bindok svc s x = false ->
  dev_key (device (state_after s x)) = dev_key (device s).
Proof.
  intros Hb. destruct (is_dev_reply svc s x) eqn:Hd.
  - destruct (react_dev_device svc cmd_codes s x Hd) as (rinfo & _ & _ & _ & Hk).
    exact Hk.
  - destruct (react_kept svc cmd_codes s x Hd Hb)
      as [(_ & _ & _ & _ & _ & _ & Hk & _) _]. exact Hk.
Qed.

(** Without a device id nothing binds. *)
Lemma unbound_run (xs : list Stimulus) :
  forall s, truthy (dev_id (device s)) = false ->
    dev_free svc cmd_codes s xs = true ->
    dev_bound (device (final s xs)) = dev_bound (device s) /\
    honoured_bindoks svc cmd_codes s xs = 0%nat.
Proof.
  induction xs as [|x xs IH]; intros s Hid Hfree; [auto|].
  cbn in Hfree. apply andb_prop in Hfree as [Hx Hrest].
  apply negb_true_iff in Hx.
  assert (is_honoured_bindok svc s x = false) as Hb.
  { unfold is_honoured_bindok. rewrite Hid. apply andb_false_r. }
  destruct (react_kept svc cmd_codes s x Hx Hb)
    as [(_ & Hid' & _ & _ & _ & Hbound & _) _].
  rewrite final_cons. cbn [honoured_bindoks]. rewrite Hb.
  destruct (IH (state_after s x)) as [H1 H2];
    [rewrite Hid'; exact Hid|exact Hrest|].
  rewrite H1, H2. auto.
Qed.

End Invariants.

(** ** Over whole runs *)

(** X10. In every session a run from the constructor can reach, a bound
    device has a non-empty id, and a device with a non-empty id has a
    [props] object. *)
Theorem bound_device_is_registered (svc : EncryptionService)
    (cmd_codes : list string) (s : Session) :
  reachable svc cmd_codes s ->
  (dev_bound (device s) = Some true -> truthy (dev_id (device s)) = true) /\
  (truthy (dev_id (device s)) = true -> is_Some (dev_props (device s))).
Proof.
  intros [xs ->]. apply registered_run, registered_new_Device.
Qed.

Lemma bound_device_is_registered_witness :
  truthy (dev_id (device Demo.bound_session)) = true /\
  is_Some (dev_props (device Demo.bound_session)).
Proof.
  destruct (bound_device_is_registered Demo.service Demo.catalog
    Demo.bound_session
    (ex_intro _ [Demo.handshake "dev-v1"; Demo.handshake "bindok-1"] eq_refl))
    as [H1 H2].
  split; [exact (H1 eq_refl)|exact (H2 (H1 eq_refl))].
Defined.

(** With a [props] object to write to, one assignment returns and leaves
    a [props] object, whatever the key. *)
Lemma write_prop_total (code : string) (value : JsVal) (s : Session) :
  is_Some (dev_props (device s)) ->
  exists s', write_prop code value s = (s', [], inr tt) /\
             is_Some (dev_props (device s')).
Proof.
  intros [ps Hps]. unfold write_prop. unfold_js. rewrite Hps. cbn.
  destruct (String.eqb code "__proto__" && props_inherits s); cbn.
  - destruct value; cbn; eexists; (split; [reflexivity|]); cbn; eauto.
  - eexists. split; [reflexivity|]. cbn. eauto.
Qed.

Lemma forEach_total (f : string -> nat -> M unit) :
  (forall c i s, is_Some (dev_props (device s)) ->
     exists s', f c i s = (s', [], inr tt) /\ is_Some (dev_props (device s'))) ->
  forall (l : list string) (i : nat) (s : Session),
    is_Some (dev_props (device s)) ->
    exists s', forEach_from i l f s = (s', [], inr tt) /\
               is_Some (dev_props (device s')).
Proof.
  intros Hf. induction l as [|c rest IH]; intros i s Hs; cbn.
  - exists s. split; [reflexivity|assumption].
  - unfold bind. destruct (Hf c i s Hs) as (s1 & -> & Hs1).
    destruct (IH (S i) s1 Hs1) as (s2 & -> & Hs2).
    exists s2. split; [reflexivity|assumption].
Qed.

(** A bound status payload that has its lists is handled to the end. *)
Lemma dispatch_status_total (svc : EncryptionService) (s : Session)
    (message : Message) (pack : Pack) (rinfo : RInfo) (codes : list string)
    (values : list JsVal) :
  carries pack codes values ->
  dev_bound (device s) = Some true ->
  is_Some (dev_props (device s)) ->
  exists s',
    dispatch svc message pack rinfo s =
      (s', [callback_of pack (device s')], inr tt).
Proof.
  intros Hc Hb Hs. unfold dispatch, forEach, callback_of.
  unfold bind, gets, defined, ret, emit. rewrite Hb.
  rewrite bool_decide_eq_true_2 by reflexivity.
  destruct Hc as [(Ht & Hl & Hv)|(Ht & Hl & Hv)]; rewrite Ht, Hl; cbn.
  - destruct (forEach_total (store_dat pack)) with (l := codes) (i := 0%nat) (s := s)
      as (s' & -> & _); [|assumption|eauto].
    intros c i s0 Hs0. unfold store_dat, bind, defined, ret. rewrite Hv.
    destruct (write_prop_total c (index values i) s0 Hs0) as (s1 & -> & Hs1).
    eauto.
  - destruct (forEach_total (store_res pack)) with (l := codes) (i := 0%nat) (s := s)
      as (s' & -> & _); [|assumption|eauto].
    intros c i s0 Hs0. unfold store_res, bind, defined, ret.
    unfold res_values in Hv. destruct (pack_p pack) as [p|].
    + destruct (write_prop_total c (index p i) s0 Hs0) as (s1 & -> & Hs1).
      eauto.
    + rewrite Hv.
      destruct (write_prop_total c (index values i) s0 Hs0) as (s1 & -> & Hs1).
      eauto.
Qed.

(** X11. On a bound session reached by a run from the constructor, a [dat]
    or [res] that has its two lists never throws, whatever its codes: the
    callback runs once with the device as the payload left it and the
    handler returns. When none of the codes is [__proto__] the pairs are
    all written. *)
Theorem status_never_throws_once_bound (svc : EncryptionService)
    (cmd_codes : list string) (xs : list Stimulus) (msg : Buffer)
    (rinfo : RInfo) (message : Message) (pack : Pack) (codes : list string)
    (values : list JsVal) :
  let s := final svc cmd_codes new_Device xs in
  dev_bound (device s) = Some true ->
  payload_of svc s msg = Some (message, pack) ->
  carries pack codes values ->
  let r := _handleResponse svc msg rinfo s in
  outcome_of r = inr tt /\
  events_of r = [callback_of pack (device (state_of r))] /\
  ("__proto__" ∉ codes ->
   exists ps,
     dev_props (device s) = Some ps /\
     dev_props (device (state_of r)) = Some (write_pairs codes values ps)).
Proof.
  intros s Hb Hp Hc r.
  destruct (registered_run svc cmd_codes xs new_Device registered_new_Device)
    as [H1 H2].
  pose proof (H2 (H1 Hb)) as Hs. fold s in Hs.
  split; [|split].
  - subst r. rewrite (handle_opened svc s msg rinfo message pack Hp).
    destruct (dispatch_status_total svc (incr_packetReceivedNo s) message pack
                rinfo codes values Hc Hb Hs) as (s' & ->).
    reflexivity.
  - subst r. rewrite (handle_opened svc s msg rinfo message pack Hp).
    destruct (dispatch_status_total svc (incr_packetReceivedNo s) message pack
                rinfo codes values Hc Hb Hs) as (s' & ->).
    reflexivity.
  - intros Hnot. destruct Hs as [ps Hps]. exists ps. split; [assumption|].
    subst r.
    rewrite (handle_carried svc s msg rinfo message pack codes values ps
               Hp Hc Hb Hps Hnot).
    reflexivity.
Qed.

Lemma status_never_throws_once_bound_witness :
  outcome_of (_handleResponse Demo.service (Demo.wire 0 "res-p") Demo.from
                (final Demo.service Demo.catalog new_Device
                   [Demo.handshake "dev-v1"; Demo.handshake "bindok-1"]))
  = inr tt.
Proof.
  apply (status_never_throws_once_bound Demo.service Demo.catalog
    [Demo.handshake "dev-v1"; Demo.handshake "bindok-1"]
    (Demo.wire 0 "res-p") Demo.from _ (Demo.res_p ["Pow"] [JNum 1])
    ["Pow"] [JNum 1] eq_refl eq_refl
    (or_intror (conj eq_refl (conj eq_refl eq_refl)))).
Defined.

(** X12. The id, name, address and port of the device are written by [dev]
    replies only: over a run without one they stay as they are, whatever
    the senders of the datagrams in between; a [dev] reply sets address and
    port to those of its sender. *)
Theorem identity_written_by_dev_reply_only (svc : EncryptionService)
    (cmd_codes : list string) (s : Session) (xs : list Stimulus)
    (x : Stimulus) (rinfo : RInfo) :
  dev_free svc cmd_codes s xs = true ->
  let s' := final svc cmd_codes s xs in
  identity_kept (device s) (device s') /\
  (is_dev_reply svc s' x = true -> sender x = Some rinfo ->
   dev_address (device (state_after svc cmd_codes s' x))
     = Some (rinfo_address rinfo) /\
   dev_port (device (state_after svc cmd_codes s' x))
     = Some (rinfo_port rinfo)).
Proof.
  intros Hfree s'. split; [apply identity_run; assumption|].
  intros Hd Hs.
  destruct (react_dev_device svc cmd_codes s' x Hd) as (r & Hr & Ha & Hp & _).
  rewrite Hs in Hr. injection Hr as <-. auto.
Qed.

(** A [bindok] and a report from [10.0.0.9] leave the device at
    [10.0.0.5]. *)
Lemma identity_written_by_dev_reply_only_witness :
  let s := final Demo.service Demo.catalog new_Device [Demo.handshake "dev-v1"] in
  let xs := [Inbound (Demo.wire 1 "bindok-1") Demo.elsewhere;
             Inbound (Demo.wire 0 "dat-1") Demo.elsewhere] in
  dev_address (device (final Demo.service Demo.catalog s xs)) = Some "10.0.0.5".
Proof.
  cbv zeta.
  destruct (identity_written_by_dev_reply_only Demo.service Demo.catalog
    (final Demo.service Demo.catalog new_Device [Demo.handshake "dev-v1"])
    [Inbound (Demo.wire 1 "bindok-1") Demo.elsewhere;
     Inbound (Demo.wire 0 "dat-1") Demo.elsewhere]
    Listening Demo.from eq_refl) as [(_ & _ & Ha & _) _].
  rewrite Ha. reflexivity.
Defined.

(** X13. The stored key is written by honoured [bindok] payloads only: over
    a run without one it stays as it is. In particular a [dev] reply, which
    resets [bound], keeps the key of the earlier binding. *)
Theorem key_written_by_bindok_only (svc : EncryptionService)
    (cmd_codes : list string) (s : Session) (xs : list Stimulus) :
  honoured_bindoks svc cmd_codes s xs = 0%nat ->
  dev_key (device (final svc cmd_codes s xs)) = dev_key (device s).
Proof.
  revert s. induction xs as [|x xs IH]; intros s H; [reflexivity|].
  cbn in H. destruct (is_honoured_bindok svc s x) eqn:Hb; [discriminate|].
  rewrite final_cons, (IH _ H). apply key_step. exact Hb.
Qed.

Lemma key_written_by_bindok_only_witness :
  let s' := final Demo.service Demo.catalog Demo.bound_session
              [Demo.report "dat-1"; Demo.handshake "dev-v1"] in
  dev_bound (device s') = Some false /\ dev_key (device s') = Some "K1".
Proof.
  cbv zeta. split; [reflexivity|].
  rewrite (key_written_by_bindok_only Demo.service Demo.catalog
    Demo.bound_session [Demo.report "dat-1"; Demo.handshake "dev-v1"] eq_refl).
  reflexivity.
Defined.

(** X14. The two counters count: over any run the receive counter goes up
    by the number of datagrams delivered, opened or not, and the send
    counter by the number of sends (scan, bind requests, polls,
    commands). *)
Theorem counters_count_datagrams (svc : EncryptionService)
    (cmd_codes : list string) (s : Session) (xs : list Stimulus) :
  packetReceivedNo (final svc cmd_codes s xs) =
    packetReceivedNo s + Z.of_nat (count_inbound xs) /\
  packetSentNo (final svc cmd_codes s xs) =
    packetSentNo s + Z.of_nat (count_sent (trace svc cmd_codes s xs)).
Proof.
  revert s. induction xs as [|x xs IH]; intros s; [cbn; split; lia|].
  rewrite final_cons, trace_cons.
  destruct (IH (state_after svc cmd_codes s x)) as [H1 H2].
  destruct (counters_step svc cmd_codes s x) as [G1 G2].
  rewrite H1, H2, G1, G2.
  assert (forall evs1 evs2,
            count_sent (evs1 ++ evs2) = (count_sent evs1 + count_sent evs2)%nat)
    as Happ.
  { induction evs1 as [|e evs1 IH1]; intros evs2; [reflexivity|].
    destruct e; cbn; rewrite IH1; reflexivity. }
  rewrite Happ. destruct x; cbn [count_inbound]; split; lia.
Qed.

(** X15. Every honoured [bindok] starts one more interval timer, and every
    timer the session starts is the status poll on 3000 ms: over any run
    the number of timers started is the number of honoured [bindok]
    payloads. *)
Theorem one_timer_per_honoured_bindok (svc : EncryptionService)
    (cmd_codes : list string) (s : Session) (xs : list Stimulus) :
  count_SetInterval (trace svc cmd_codes s xs) =
    honoured_bindoks svc cmd_codes s xs /\
  Forall polls_every_3s (trace svc cmd_codes s xs).
Proof.
  revert s.
  induction xs as [|x xs IH]; intros s; [split; [reflexivity|constructor]|].
  rewrite trace_cons. cbn [honoured_bindoks].
  destruct (IH (state_after svc cmd_codes s x)) as [H1 H2].
  destruct (timers_step svc cmd_codes s x) as [G1 G2].
  assert (forall evs1 evs2,
            count_SetInterval (evs1 ++ evs2) =
              (count_SetInterval evs1 + count_SetInterval evs2)%nat) as Happ.
  { induction evs1 as [|e evs1 IH1]; intros evs2; [reflexivity|].
    destruct e; cbn; rewrite IH1; reflexivity. }
  rewrite Happ, G1, H1. split; [reflexivity|].
  apply Forall_app. auto.
Qed.

(** X16. Every envelope sent by a reaction, in any session, has
    [cid = "app"], [t = "pack"], [uid = 0], names as [tcid] the device id
    stored by the end of the reaction and goes to the address and port
    stored by then. It has [i = 1] when the reaction handles a [dev] reply
    (the bind request) and [i = 0] otherwise. *)
Theorem envelopes_are_addressed_to_the_device (svc : EncryptionService)
    (cmd_codes : list string) (s : Session) (x : Stimulus)
    (request : Envelope) (port : option Z) (address : option string) :
  In (Send request port address) (events_after svc cmd_codes s x) ->
  addressed_to (device (state_after svc cmd_codes s x)) request port address /\
  ((env_i request = 1 /\ is_dev_reply svc s x = true) \/
   (env_i request = 0 /\ is_dev_reply svc s x = false)).
Proof.
  unfold is_dev_reply, inbound_with, events_after, state_after.
  destruct x as [|msg rinfo| |commands values]; cbn [react].
  - unfold_js. cbn. intros [H|[H|[]]]; discriminate.
  - destruct (payload_of svc s msg) as [[message pack]|] eqn:Hp.
    2:{ destruct (handle_failed svc s msg rinfo Hp) as [e ->]. intros []. }
    rewrite (handle_opened svc s msg rinfo message pack Hp).
    destruct (eq_lit (pack_t pack) "dev") eqn:Hdev.
    { pose proof (eq_lit_true _ _ Hdev) as Ht.
      destruct (dispatch_dev_run svc (incr_packetReceivedNo s) message pack rinfo Ht)
        as (_ & _ & line & request' & Hev & Hi & Haddr).
      rewrite Hev. intros [H|[H|[]]]; [discriminate|].
      injection H as <- <- <-. auto. }
    destruct (eq_lit (pack_t pack) "bindok" && truthy (dev_id (device s))) eqn:Hb.
    { apply andb_prop in Hb as [Ht Hid]. apply eq_lit_true in Ht.
      rewrite (dispatch_bindok svc (incr_packetReceivedNo s) message pack rinfo Ht Hid).
      cbn. intros [H|[H|[H|[]]]]; discriminate. }
    destruct (dispatch_kept svc (incr_packetReceivedNo s) message pack rinfo Hdev Hb)
      as [_ Hq].
    intros Hin. destruct (reports_no_Send _ _ _ _ Hq Hin).
  - unfold _requestDeviceStatus, bind, gets. cbn.
    destruct (_sendRequest_effects svc (StatusMsg cmd_codes (dev_id (device s)))
                (dev_address (device s)) (dev_port (device s)) s)
      as (Hd & _ & _ & [Hev|(request' & Hev & H1 & H2 & H3 & H4 & H5)]);
      destruct (_sendRequest _ _ _ _ s) as [[s1 ev1] r]; cbn in *; subst ev1;
      [intros []|].
    intros [H|[]]. injection H as <- <- <-. rewrite Hd.
    split; [|auto]. unfold addressed_to.
    destruct (dev_port (device s)), (dev_address (device s)); auto 10.
  - unfold _sendCommand.
    destruct (_sendRequest_effects svc (CmdMsg commands values) None None s)
      as (Hd & _ & _ & [Hev|(request' & Hev & H1 & H2 & H3 & H4 & H5)]);
      rewrite Hev; [intros []|].
    intros [H|[]]. injection H as <- <- <-. rewrite Hd.
    split; [|auto]. unfold addressed_to. auto 10.
Qed.

Lemma envelopes_are_addressed_to_the_device_witness :
  let s := final Demo.service Demo.catalog new_Device
             [Demo.handshake "dev-v2"; Demo.handshake "bindok-1"] in
  addressed_to (device (state_after Demo.service Demo.catalog s Tick))
    Demo.v2_poll (Some 7000) (Some "10.0.0.5").
Proof.
  cbv zeta.
  apply (envelopes_are_addressed_to_the_device Demo.service Demo.catalog
    (final Demo.service Demo.catalog new_Device
       [Demo.handshake "dev-v2"; Demo.handshake "bindok-1"])
    Tick Demo.v2_poll (Some 7000) (Some "10.0.0.5")).
  left. reflexivity.
Defined.



(** X18. While the stored device id is missing or empty, no [bindok] is
    honoured: over a run without a [dev] reply [bound] stays as it is and
    [onConnected] is never called. So a [dev] reply that yields no id (an
    envelope without [cid], say) registers a device that cannot be bound
    until another [dev] reply arrives. *)
Theorem no_binding_without_device_id (svc : EncryptionService)
    (cmd_codes : list string) (s : Session) (xs : list Stimulus) :
  truthy (dev_id (device s)) = false ->
  dev_free svc cmd_codes s xs = true ->
  dev_bound (device (final svc cmd_codes s xs)) = dev_bound (device s) /\
  count_OnConnected (trace svc cmd_codes s xs) = 0%nat.
Proof.
  intros Hid Hfree.
  destruct (unbound_run svc cmd_codes xs s Hid Hfree) as [H1 H2].
  split; [exact H1|].
  revert s H2 Hid Hfree H1.
  induction xs as [|x xs IH]; intros s H2 Hid Hfree H1; [reflexivity|].
  rewrite trace_cons, count_OnConnected_app, count_OnConnected_step.
  cbn in H2, Hfree. apply andb_prop in Hfree as [Hx Hrest].
  apply negb_true_iff in Hx.
  destruct (is_honoured_bindok svc s x) eqn:Hb; [discriminate|].
  destruct (react_kept svc cmd_codes s x Hx Hb) as [(_ & Hid' & _) _].
  rewrite (IH (state_after svc cmd_codes s x)); auto.
  - rewrite Hid'. exact Hid.
  - apply unbound_run; [rewrite Hid'; exact Hid|exact Hrest].
Qed.

(** A [dev] reply in an envelope without [cid], then a [bindok]: the device
    stays unbound. *)
Lemma no_binding_without_device_id_witness :
  let s := final Demo.service2 Demo.catalog new_Device
             [Inbound (Demo.nameless "dev-anonymous") Demo.from] in
  dev_bound (device (final Demo.service2 Demo.catalog s
                       [Demo.handshake "bindok-1"])) = Some false.
Proof.
  cbv zeta.
  destruct (no_binding_without_device_id Demo.service2 Demo.catalog
    (final Demo.service2 Demo.catalog new_Device
       [Inbound (Demo.nameless "dev-anonymous") Demo.from])
    [Demo.handshake "bindok-1"] eq_refl eq_refl) as [H _].
  rewrite H. reflexivity.
Defined.
